(** * document_datasets.py: the dataset catalogue generator

    A shallow embedding of [tensorflow_datasets/scripts/document_datasets.py]
    and the properties of its renderers, its namespace grouping and its
    document assembly.

    Python strings are modelled as byte strings ([string]); characters
    outside ASCII are left alone by [upper] and are never whitespace.
    Python [int] is [Z].  Exceptions are the [Raise] results of a small
    error monad. *)

From Stdlib Require Import ZArith Ascii String DecimalString.
From stdpp Require Import base option list gmap strings sorting.

(** ** The Python builtins the script relies on *)

Module Py.

(** Exceptions the script can let escape. *)
Inductive exn :=
| DatasetNotFoundError
| AttributeError
| TypeError
| IndexError
| NameError
| KeyError.

Inductive result (A : Type) :=
| Ok (a : A)
| Raise (e : exn).
Global Arguments Ok {A} a.
Global Arguments Raise {A} e.

Global Instance result_ret : MRet result := λ A, Ok.
Global Instance result_bind : MBind result := λ A B f m,
  match m with Ok a => f a | Raise e => Raise e end.

Global Instance exn_eq_dec : EqDecision exn.
Proof. solve_decision. Defined.

Definition nl : string := String "010"%char EmptyString.
Definition dq : string := String "034"%char EmptyString.

(** [sep.join(l)] *)
Definition join (sep : string) (l : list string) : string :=
  String.concat sep l.

(** [s * n]; a negative count gives the empty string. *)
Definition str_mul (s : string) (n : Z) : string :=
  String.concat EmptyString (replicate (Z.to_nat n) s).

(** [s.split(sep)] for a one-character separator. *)
Fixpoint split (sep : ascii) (s : string) : list string :=
  match s with
  | EmptyString => [EmptyString]
  | String c s' =>
      if Ascii.eqb c sep then EmptyString :: split sep s'
      else match split sep s' with
           | [] => [String c EmptyString]
           | w :: ws => String c w :: ws
           end
  end.

Definition upper_char (c : ascii) : ascii :=
  let n := nat_of_ascii c in
  if (97 <=? n)%nat && (n <=? 122)%nat then ascii_of_nat (n - 32) else c.

(** [s.upper()] *)
Fixpoint upper (s : string) : string :=
  match s with
  | EmptyString => EmptyString
  | String c s' => String (upper_char c) (upper s')
  end.

(** [str.isspace] on one character: tab to carriage return, the four
    separators 28 to 31, and the blank. *)
Definition is_space (c : ascii) : bool :=
  let n := nat_of_ascii c in
  ((9 <=? n)%nat && (n <=? 13)%nat) || ((28 <=? n)%nat && (n <=? 32)%nat).

Fixpoint lstrip (s : string) : string :=
  match s with
  | EmptyString => EmptyString
  | String c s' => if is_space c then lstrip s' else s
  end.

(** [s.strip()] *)
Definition strip (s : string) : string :=
  String.rev (lstrip (String.rev (lstrip s))).

(** [s.replace(old, new)] for one-character [old]. *)
Fixpoint replace (old : ascii) (new : string) (s : string) : string :=
  match s with
  | EmptyString => EmptyString
  | String c s' =>
      if Ascii.eqb c old then new +:+ replace old new s'
      else String c (replace old new s')
  end.

(** [sub in s] *)
Fixpoint contains (sub s : string) : bool :=
  String.prefix sub s
  || match s with
     | EmptyString => false
     | String _ s' => contains sub s'
     end.

(** [s.endswith(suffix)] *)
Definition endswith (s suffix : string) : bool :=
  let n := String.length s in
  let m := String.length suffix in
  (m <=? n)%nat && String.eqb (String.substring (n - m) m s) suffix.

(** [s[:-1]] *)
Definition drop_last (s : string) : string :=
  String.substring 0 (String.length s - 1) s.

(** [str(n)] for an [int]. *)
Definition str_int (n : Z) : string :=
  let digits := NilEmpty.string_of_uint (N.to_uint (Z.to_N (Z.abs n))) in
  if (n <? 0)%Z then "-" +:+ digits else digits.

(** The [,] option of the format mini-language: a comma before every
    group of three digits, counted from the right. *)
Fixpoint group_thousands (digits : list ascii) : list ascii :=
  match digits with
  | [] => []
  | d :: rest =>
      d :: (if (length rest mod 3 =? 0)%nat && negb (length rest =? 0)%nat
            then ","%char :: group_thousands rest
            else group_thousands rest)
  end.

Definition format_thousands (n : Z) : string :=
  let digits :=
    list_ascii_of_string
      (NilEmpty.string_of_uint (N.to_uint (Z.to_N (Z.abs n)))) in
  let grouped := string_of_list_ascii (group_thousands digits) in
  if (n <? 0)%Z then "-" +:+ grouped else grouped.

(** Field width: [{:w}] pads a string on the right, [{:>w}] on the
    left; a longer text is never cut. *)
Definition ljust (s : string) (w : nat) : string :=
  s +:+ str_mul " " (Z.of_nat (w - String.length s)).
Definition rjust (s : string) (w : nat) : string :=
  str_mul " " (Z.of_nat (w - String.length s)) +:+ s.

(** [os.path.join(a, b)] on a POSIX system. *)
Definition path_join (a b : string) : string :=
  if String.prefix "/" b then b
  else if String.eqb a EmptyString || endswith a "/" then a +:+ b
  else a +:+ "/" +:+ b.

(** Stable insertion sort: the order [sorted] and [list.sort] produce.
    [lt a b] says that [a] goes strictly before [b]; elements that
    neither precede the other keep their input order, also under
    [reverse=True]. *)
Section sorting.
Context {A : Type} (lt : A → A → bool).

Fixpoint insert_sorted (x : A) (l : list A) : list A :=
  match l with
  | [] => [x]
  | y :: l' => if lt y x then y :: insert_sorted x l' else x :: y :: l'
  end.

Definition sort_with (l : list A) : list A := foldr insert_sorted [] l.
End sorting.

(** [sorted(l)] on strings: by code point. *)
Definition sorted (l : list string) : list string := sort_with String.ltb l.

(** [sorted(l, key=f)] for a string-valued key. *)
Definition sorted_key {A} (f : A → string) (l : list A) : list A :=
  sort_with (λ a b, String.ltb (f a) (f b)) l.

(** [<] on tuples [(int, str)]. *)
Definition tuple_ltb (a b : Z * string) : bool :=
  (a.1 <? b.1)%Z || ((a.1 =? b.1)%Z && String.ltb a.2 b.2).

(** [l.sort(reverse=True)] on tuples [(int, str)]. *)
Definition sort_reverse (l : list (Z * string)) : list (Z * string) :=
  sort_with (λ a b, tuple_ltb b a) l.

(** A [for] loop whose body may raise. *)
Fixpoint for_each {S A} (body : S → A → result S) (l : list A) (st : S)
  : result S :=
  match l with
  | [] => Ok st
  | x :: l' => st' ← body st x; for_each body l' st'
  end.

(** Text given line by line, every line closed by a newline. *)
Definition unlines (ls : list string) : string :=
  String.concat EmptyString (map (λ l, l +:+ nl) ls).

End Py.
Import Py.


(** ** Data model *)

(** A feature is a leaf connector, known to the script only through
    [str(v)], or a nested [FeaturesDict].  [type_name] is
    [type(d).__name__]; [items] lists the mapping in iteration order. *)
Inductive Feature :=
| Leaf (text : string)
| Nested (d : FeaturesDict)
with FeaturesDict :=
| MkFeaturesDict (type_name : string) (items : list (string * Feature)).

Record SplitInfo := { num_examples : Z }.

(** [info.splits]: the mapping in iteration order, and the total, [None]
    when unset. *)
Record SplitDict := {
  total_num_examples : option Z;
  split_items : list (string * SplitInfo);
}.

Record DatasetInfo := {
  description : string;
  version : string;
  urls : list string;
  size_in_bytes : Z;
  supervised_keys : option (string * string);
  citation : option string;
  features : FeaturesDict;
  splits : SplitDict;
}.

(** [config_type_name] is [type(config).__name__]. *)
Record BuilderConfig := {
  config_name : string;
  config_version : string;
  config_description : string;
  config_type_name : string;
}.

(** [cls_module] and [cls_name] are [builder.__class__.__module__] and
    [builder.__class__.__name__]. *)
Record DatasetBuilder := {
  name : string;
  cls_module : string;
  cls_name : string;
  BUILDER_CONFIGS : list BuilderConfig;
  builder_config : option BuilderConfig;
  info : DatasetInfo;
}.

(** [builder.builder_configs] is the library's dictionary of
    [BUILDER_CONFIGS] by name; the script only tests it for emptiness. *)
Definition builder_configs (builder : DatasetBuilder) : list BuilderConfig :=
  BUILDER_CONFIGS builder.

(** Keyword arguments the script passes to [tfds.builder]. *)
Inductive BuilderKwargs :=
| NoKwargs
| ConfigKwarg (config : BuilderConfig)
| DatasetNameKwarg (dataset_name : string).

(** What the script consumes from outside: the registry, the size
    formatter, the module table and the textual form of supervised keys. *)
Class Env := {
  tfds_builder : string → BuilderKwargs → result DatasetBuilder;
  tfds_list_builders : list string;
  size_str : Z → string;
  module_file : string → string;
  relpath_tfds_dir : string → string;
  str_supervised_keys : option (string * string) → string;
}.

(** The nested [defaultdict]: module, sub-module, leaf module, builders. *)
Abbreviation Bucket := (gmap string (list DatasetBuilder)).
Abbreviation Sections := (gmap string (gmap string (list DatasetBuilder))).
Abbreviation ModuleTree := (gmap string (gmap string (gmap string (list DatasetBuilder)))).

(** ** Templates *)

Definition BASE_URL : string :=
  "https://github.com/tensorflow/datasets/tree/master/tensorflow_datasets".

Definition BUILDER_BLACKLIST : list string := ["image_label_folder"].

Definition DOC (toc datasets : string) : string :=
  unlines [
    "<!-- auto-generated by tfds.scripts.document_datasets -->";
    "# Datasets";
    EmptyString;
    "## Usage";
    EmptyString;
    "```python";
    "# See all registered datasets";
    "tfds.list_builders()";
    EmptyString;
    "# Load a given dataset by name, along with the DatasetInfo";
    "data, info = tfds.load(" +:+ dq +:+ "mnist" +:+ dq +:+ ", with_info=True)";
    "train_data, test_data = data['train'], data['test']";
    "assert isinstance(train_data, tf.data.Dataset)";
    "assert info.features['label'].num_classes == 10";
    "assert info.splits['train'].num_examples == 60000";
    EmptyString;
    "# You can also access a builder directly";
    "builder = tfds.builder(" +:+ dq +:+ "mnist" +:+ dq +:+ ")";
    "assert builder.info.splits['train'].num_examples == 60000";
    "builder.download_and_prepare()";
    "datasets = builder.as_dataset()";
    EmptyString;
    "# If you need NumPy arrays";
    "np_datasets = tfds.as_numpy(datasets)";
    "```";
    EmptyString;
    "---";
    EmptyString;
    "## All Datasets";
    EmptyString;
    toc;
    EmptyString;
    "---";
    EmptyString;
    datasets
  ].

Definition SECTION_DATASETS (section_name datasets : string) : string :=
  unlines [
    "## [`" +:+ section_name +:+ "`](#" +:+ section_name +:+ ")";
    EmptyString;
    datasets
  ].

Definition CONFIG_BULLET (name version size description : string) : string :=
  unlines [
    "* `" +:+ dq +:+ name +:+ dq +:+ "` (`v" +:+ version +:+ "`) (`Size: "
      +:+ size +:+ "`): " +:+ description
  ].

Definition SINGLE_CONFIG_ENTRY
    (builder_name config_name feature_information : string) : string :=
  unlines [
    "#### `" +:+ dq +:+ builder_name +:+ "/" +:+ config_name +:+ dq +:+ "`";
    EmptyString;
    feature_information;
    EmptyString
  ].

(** The keyword arguments of [DATASET_WITH_CONFIGS_ENTRY.format]. *)
Record ConfigsEntryFields := {
  ce_snakecase_name : string;
  ce_module_and_class : string;
  ce_cls_url : string;
  ce_config_names : string;
  ce_config_cls : string;
  ce_configs : string;
  ce_urls : string;
  ce_url : string;
  ce_supervised_keys : string;
  ce_citation : string;
  ce_statistics_information : string;
  ce_description : string;
  ce_description_prefix : string;
}.

Definition DATASET_WITH_CONFIGS_ENTRY (f : ConfigsEntryFields) : string :=
  unlines [
    "### `" +:+ dq +:+ ce_snakecase_name f +:+ dq +:+ "`";
    EmptyString;
    ce_description_prefix f +:+ ce_description f;
    EmptyString;
    "* URL: [" +:+ ce_url f +:+ "](" +:+ ce_url f +:+ ")";
    "* `DatasetBuilder`: [`" +:+ ce_module_and_class f +:+ "`]("
      +:+ ce_cls_url f +:+ ")";
    EmptyString;
    "`" +:+ ce_snakecase_name f +:+ "` is configured with `"
      +:+ ce_config_cls f +:+ "` and has the following";
    "configurations predefined (defaults to the first one):";
    EmptyString;
    ce_config_names f;
    EmptyString;
    ce_configs f;
    EmptyString;
    "#### Statistics";
    ce_statistics_information f;
    EmptyString;
    "#### Urls";
    ce_urls f;
    EmptyString;
    "#### Supervised keys (for `as_supervised=True`)";
    "`" +:+ ce_supervised_keys f +:+ "`";
    EmptyString;
    ce_citation f;
    "---"
  ].

(** The keyword arguments of [DATASET_ENTRY.format]. *)
Record EntryFields := {
  de_snakecase_name : string;
  de_module_and_class : string;
  de_cls_url : string;
  de_description : string;
  de_description_prefix : string;
  de_version : string;
  de_feature_information : string;
  de_statistics_information : string;
  de_urls : string;
  de_url : string;
  de_supervised_keys : string;
  de_citation : string;
  de_size : string;
}.

Definition DATASET_ENTRY (f : EntryFields) : string :=
  unlines [
    "### `" +:+ dq +:+ de_snakecase_name f +:+ dq +:+ "`";
    EmptyString;
    de_description_prefix f +:+ de_description f;
    EmptyString;
    "* URL: [" +:+ de_url f +:+ "](" +:+ de_url f +:+ ")";
    "* `DatasetBuilder`: [`" +:+ de_module_and_class f +:+ "`]("
      +:+ de_cls_url f +:+ ")";
    "* Version: `v" +:+ de_version f +:+ "`";
    "* Size: `" +:+ de_size f +:+ "`";
    EmptyString;
    "#### Features";
    de_feature_information f;
    EmptyString;
    "#### Statistics";
    de_statistics_information f;
    EmptyString;
    "#### Urls";
    de_urls f;
    EmptyString;
    "#### Supervised keys (for `as_supervised=True`)";
    "`" +:+ de_supervised_keys f +:+ "`";
    EmptyString;
    de_citation f;
    "---"
  ].

Definition FEATURE_BLOCK (s : string) : string :=
  unlines [ "```python"; s; "```" ].

Definition CITATION_BLOCK (s : string) : string :=
  unlines [ "#### Citation"; "```"; s; "```" ].

Definition STATISTICS_TABLE (split_statistics : string) : string :=
  unlines [ "Split  | Examples"; ":----- | ---:"; split_statistics ].

Definition JSON_LD_STR (name description url size : string) : string :=
  unlines [
    "{";
    "  " +:+ dq +:+ "@context" +:+ dq +:+ ": " +:+ dq +:+ "https://schema.org/"
      +:+ dq +:+ ",";
    "  " +:+ dq +:+ "@type" +:+ dq +:+ ": " +:+ dq +:+ "Dataset" +:+ dq +:+ ",";
    "  " +:+ dq +:+ "name" +:+ dq +:+ ": " +:+ dq +:+ name +:+ dq +:+ ",";
    "  " +:+ dq +:+ "description" +:+ dq +:+ ": " +:+ dq +:+ description
      +:+ dq +:+ ",";
    "  " +:+ dq +:+ "url" +:+ dq +:+ ": " +:+ url +:+ ",";
    "  " +:+ dq +:+ "size:" +:+ dq +:+ " " +:+ size +:+ ",";
    "}"
  ].

(** ** The script *)

Section script.
Context `{Env}.

Definition cls_url (module_name : string) : string :=
  let mod_file := module_file module_name in
  let mod_file :=
    if endswith mod_file "pyc" then drop_last mod_file else mod_file in
  let path := relpath_tfds_dir mod_file in
  path_join BASE_URL path.

Definition tfds_mod_name (mod_name : string) : string :=
  let parts := split "." mod_name in
  join "." (["tfds"] ++ tail parts).

(** [(info.urls and info.urls[0]) or "<no known url>"]: an empty list is
    false, and so is an empty first URL. *)
Definition url_from_info (info : DatasetInfo) : string :=
  match urls info with
  | [] => "<no known url>"
  | url :: _ =>
      if String.eqb url EmptyString then "<no known url>" else url
  end.

Definition format_urls (urls : list string) : string :=
  join nl (map (λ url, " * [" +:+ url +:+ "](" +:+ url +:+ ")") urls).

(** The [lines] of [_pprint_features_dict].  [v_str] indexes the mapping
    by key and renders the value found; the keys it is asked for come
    from the mapping, so the lookup never misses. *)
Fixpoint pprint_lines (features_dict : FeaturesDict) (indent : Z)
    (add_prefix : bool) {struct features_dict} : list string :=
  match features_dict with
  | MkFeaturesDict type_name items =>
      let first_last_indent_str := str_mul " " indent in
      let indent_str := str_mul " " (indent + 4) in
      let first_line :=
        (if add_prefix then first_last_indent_str else EmptyString)
          +:+ type_name +:+ "({" in
      let v_str :=
        fix v_str (d : list (string * Feature)) (k : string) : string :=
          match d with
          | [] => EmptyString
          | (k', v) :: d' =>
              if String.eqb k k' then
                match v with
                | Nested v' => join nl (pprint_lines v' (indent + 4) false)
                | Leaf text => text
                end
              else v_str d' k
          end in
      [first_line]
        ++ map (λ k, indent_str +:+ "'" +:+ k +:+ "': " +:+ v_str items k +:+ ",")
               (sorted (map fst items))
        ++ [first_last_indent_str +:+ "})"]
  end.

Definition _pprint_features_dict (features_dict : FeaturesDict) (indent : Z)
    (add_prefix : bool) : string :=
  join nl (pprint_lines features_dict indent add_prefix).

Definition make_feature_information (info : DatasetInfo) : string :=
  FEATURE_BLOCK (_pprint_features_dict (features info) 0 true).

Definition make_citation (citation : option string) : string :=
  match citation with
  | Some c =>
      if String.eqb c EmptyString then EmptyString
      else CITATION_BLOCK (strip c)
  | None => EmptyString
  end.

(** The list [stats] once sorted. *)
Definition sorted_stats (total : Z) (splits : SplitDict) : list (Z * string) :=
  let stats := [(total, "ALL")] in
  let stats :=
    stats ++ map (λ '(split_name, split_info),
                    (num_examples split_info, upper split_name))
                 (split_items splits) in
  sort_reverse stats.

(** ["{0:10} | {1:>10,}".format(name, num_exs)] *)
Definition format_stat (row : Z * string) : string :=
  let '(num_exs, name) := row in
  ljust name 10 +:+ " | " +:+ rjust (format_thousands num_exs) 10.

Definition make_statistics_information (info : DatasetInfo) : string :=
  match total_num_examples (splits info) with
  | None => "None computed"
  | Some total =>
      if (total =? 0)%Z then "None computed"
      else
        let stats := sorted_stats total (splits info) in
        let stats := join nl (map format_stat stats) in
        STATISTICS_TABLE stats
  end.

(** The variables the loop over the configurations assigns. *)
Record ConfigLoop := {
  loop_builder : DatasetBuilder;
  loop_info : option DatasetInfo;
  loop_config_docs : list string;
}.

Definition document_config (st : ConfigLoop) (config : BuilderConfig)
    : result ConfigLoop :=
  builder ← tfds_builder (name (loop_builder st)) (ConfigKwarg config);
  let info := info builder in
  let config_doc :=
    SINGLE_CONFIG_ENTRY (name builder) (config_name config)
      (make_feature_information info) in
  Ok {| loop_builder := builder;
        loop_info := Some info;
        loop_config_docs := loop_config_docs st ++ [config_doc] |}.

Definition config_bullet (builder : DatasetBuilder) (config : BuilderConfig)
    : result string :=
  b ← tfds_builder (name builder) (ConfigKwarg config);
  Ok (CONFIG_BULLET (config_name config) (config_version config)
        (size_str (size_in_bytes (info b))) (config_description config)).

Definition type_name_of_config (c : option BuilderConfig) : string :=
  match c with
  | Some c => config_type_name c
  | None => "NoneType"
  end.

Inductive EntryArgs :=
| ConfigsEntry (f : ConfigsEntryFields)
| PlainEntry (f : EntryFields).

(** The arguments [document_single_builder] hands to the template of its
    branch. *)
Definition document_single_builder_args (builder : DatasetBuilder)
    : result EntryArgs :=
  let mod_name := cls_module builder in
  let cls_name := cls_name builder in
  let description_prefix := EmptyString in
  match builder_configs builder with
  | _ :: _ =>
      st ← for_each document_config (BUILDER_CONFIGS builder)
             {| loop_builder := builder;
                loop_info := None;
                loop_config_docs := [] |};
      let builder := loop_builder st in
      config_names ← mapM (config_bullet builder) (BUILDER_CONFIGS builder);
      let builder_info := info builder in
      match loop_info st with
      | None => Raise NameError
      | Some info =>
          Ok (ConfigsEntry {|
            ce_snakecase_name := name builder;
            ce_module_and_class := tfds_mod_name mod_name +:+ "." +:+ cls_name;
            ce_cls_url := cls_url mod_name;
            ce_config_names := join nl config_names;
            ce_config_cls :=
              tfds_mod_name mod_name +:+ "."
                +:+ type_name_of_config (builder_config builder);
            ce_configs := join nl (loop_config_docs st);
            ce_urls := format_urls (urls info);
            ce_url := url_from_info info;
            ce_supervised_keys := str_supervised_keys (supervised_keys info);
            ce_citation := make_citation (citation info);
            ce_statistics_information := make_statistics_information info;
            ce_description := description builder_info;
            ce_description_prefix := description_prefix;
          |})
      end
  | [] =>
      let info := info builder in
      Ok (PlainEntry {|
        de_snakecase_name := name builder;
        de_module_and_class := tfds_mod_name mod_name +:+ "." +:+ cls_name;
        de_cls_url := cls_url mod_name;
        de_description := description info;
        de_description_prefix := description_prefix;
        de_version := version info;
        de_feature_information := make_feature_information info;
        de_statistics_information := make_statistics_information info;
        de_urls := format_urls (urls info);
        de_url := url_from_info info;
        de_supervised_keys := str_supervised_keys (supervised_keys info);
        de_citation := make_citation (citation info);
        de_size := size_str (size_in_bytes info);
      |})
  end.

Definition format_entry (args : EntryArgs) : string :=
  match args with
  | ConfigsEntry f => DATASET_WITH_CONFIGS_ENTRY f
  | PlainEntry f => DATASET_ENTRY f
  end.

Definition document_single_builder (builder : DatasetBuilder) : result string :=
  args ← document_single_builder_args builder;
  Ok (format_entry args).

Definition create_section_toc (section : string)
    (builders : list DatasetBuilder) : string :=
  let heading := "* [`" +:+ section +:+ "`](#" +:+ section +:+ ")" in
  let entries :=
    map (λ builder, "  * [`" +:+ dq +:+ name builder +:+ dq +:+ "`](#"
                      +:+ name builder +:+ ")") builders in
  join nl ([heading] ++ entries).

(** [builders] as [make_module_to_builder_dict] collects them. *)
Definition collect_builders (datasets : option (list string))
    : result (list DatasetBuilder) :=
  match datasets with
  | Some ((_ :: _) as datasets) =>
      mapM (λ name, tfds_builder name NoKwargs) datasets
  | _ =>
      listed ← mapM (λ name, tfds_builder name NoKwargs)
                 (filter (λ name, name ∉ BUILDER_BLACKLIST) tfds_list_builders);
      extra ← tfds_builder "image_label_folder"
                (DatasetNameKwarg "image_label_folder");
      Ok (listed ++ [extra])
  end.

(** One round of the loop over [builders].  The three nested
    [defaultdict]s end in a list: a module path of three segments reaches
    it; a shorter one stops at a dictionary, which has no [append]; a
    longer one indexes the list by a string. *)
Definition place_builder (module_to_builder : ModuleTree)
    (builder : DatasetBuilder) : result ModuleTree :=
  let mod_name := cls_module builder in
  let modules := split "." mod_name in
  if bool_decide ("testing" ∈ modules) then Ok module_to_builder
  else
    match modules with
    | [m1; m2; m3] =>
        let level1 := default ∅ (module_to_builder !! m1) in
        let level2 := default ∅ (level1 !! m2) in
        let bucket := default [] (level2 !! m3) in
        Ok (<[m1 := <[m2 := <[m3 := bucket ++ [builder]]> level2]> level1]>
              module_to_builder)
    | [] | [_] | [_; _] => Raise AttributeError
    | _ => Raise TypeError
    end.

Definition make_module_to_builder_dict (datasets : option (list string))
    : result Sections :=
  builders ← collect_builders datasets;
  module_to_builder ← for_each place_builder builders ∅;
  Ok (default ∅ (module_to_builder !! "tensorflow_datasets")).

(** [tf.nest.flatten] on a dictionary of lists: the lists one after the
    other, by sorted key. *)
Definition nest_flatten (d : Bucket) : list DatasetBuilder :=
  concat (map (λ k, default [] (d !! k)) (sorted (map fst (map_to_list d)))).

(** [builders] of one section, sorted by name. *)
Definition section_builders (module_to_builder : Sections) (section : string)
    : list DatasetBuilder :=
  let builders := nest_flatten (default ∅ (module_to_builder !! section)) in
  sorted_key name builders.

Definition document_section (module_to_builder : Sections)
    (acc : list string * list string) (section : string)
    : result (list string * list string) :=
  let '(section_tocs, section_docs) := acc in
  let builders := section_builders module_to_builder section in
  builder_docs ← mapM document_single_builder builders;
  let section_doc := SECTION_DATASETS section (join nl builder_docs) in
  let section_toc := create_section_toc section builders in
  Ok (section_tocs ++ [section_toc], section_docs ++ [section_doc]).

Definition dataset_docs_str (datasets : option (list string)) : result string :=
  module_to_builder ← make_module_to_builder_dict datasets;
  let sections := sorted (map fst (map_to_list module_to_builder)) in
  '(section_tocs, section_docs) ←
    for_each (document_section module_to_builder) sections ([], []);
  Ok (DOC (join nl section_tocs) (join nl section_docs)).

Definition schema_org (builder : DatasetBuilder) : result string :=
  let info := info builder in
  match urls info with
  | [] => Raise IndexError
  | url :: _ =>
      Ok (JSON_LD_STR (name builder) (description info)
            (replace "'" dq url) (size_str (size_in_bytes info)))
  end.

End script.

(** ** A small registry to run the script on *)

Module Demo.

Definition leaf_features : FeaturesDict :=
  MkFeaturesDict "FeaturesDict"
    [("label", Leaf "ClassLabel(shape=(), dtype=tf.int64, num_classes=10)");
     ("image", Leaf "Image(shape=(28, 28, 1), dtype=tf.uint8)")].

Definition demo_info (descr url : string) : DatasetInfo :=
  {| description := descr;
     version := "1.0.0";
     urls := [url];
     size_in_bytes := 100;
     supervised_keys := Some ("image", "label");
     citation := None;
     features := leaf_features;
     splits := {| total_num_examples := Some 60000%Z;
                  split_items := [("train", {| num_examples := 60000 |})] |} |}.

(** An info record with the given statistics and URLs. *)
Definition stats_info (total : option Z) (counts : list (string * Z))
    (links : list string) : DatasetInfo :=
  {| description := "D";
     version := "1.0.0";
     urls := links;
     size_in_bytes := 100;
     supervised_keys := Some ("image", "label");
     citation := None;
     features := leaf_features;
     splits := {| total_num_examples := total;
                  split_items :=
                    map (λ kv, (kv.1, {| num_examples := kv.2 |})) counts |} |}.

Definition mnist_splits : list (string * Z) :=
  [("train", 60000%Z); ("test", 10000%Z)].

Definition builder_with_info (nm module : string) (i : DatasetInfo)
    : DatasetBuilder :=
  {| name := nm;
     cls_module := module;
     cls_name := "Builder";
     BUILDER_CONFIGS := [];
     builder_config := None;
     info := i |}.

Definition plain_builder (nm module : string) : DatasetBuilder :=
  {| name := nm;
     cls_module := module;
     cls_name := "Builder";
     BUILDER_CONFIGS := [];
     builder_config := None;
     info := demo_info "D" "http://x" |}.

Definition small : BuilderConfig :=
  {| config_name := "small"; config_version := "0.1.0";
     config_description := "Small variant"; config_type_name := "DemoConfig" |}.

Definition large : BuilderConfig :=
  {| config_name := "large"; config_version := "0.2.0";
     config_description := "Large variant"; config_type_name := "DemoConfig" |}.

Definition small_info : DatasetInfo :=
  {| description := "small data";
     version := "0.1.0";
     urls := ["http://small"];
     size_in_bytes := 10;
     supervised_keys := Some ("image", "label");
     citation := Some "@article{small}";
     features := leaf_features;
     splits := {| total_num_examples := Some 10%Z;
                  split_items := [("train", {| num_examples := 10 |})] |} |}.

Definition large_info : DatasetInfo :=
  {| description := "large data";
     version := "0.2.0";
     urls := ["http://large"];
     size_in_bytes := 1000;
     supervised_keys := None;
     citation := Some "@article{large}";
     features := leaf_features;
     splits := {| total_num_examples := Some 1000%Z;
                  split_items := [("train", {| num_examples := 1000 |})] |} |}.

(** The builder of ["multi"] for one of its two configurations. *)
Definition multi_builder (config : BuilderConfig) : DatasetBuilder :=
  {| name := "multi";
     cls_module := "tensorflow_datasets.text.multi";
     cls_name := "Multi";
     BUILDER_CONFIGS := [small; large];
     builder_config := Some config;
     info := if String.eqb (config_name config) "small"
             then small_info else large_info |}.

Definition registry : list (string * DatasetBuilder) :=
  [("zeta", plain_builder "zeta" "tensorflow_datasets.text.zeta");
   ("image_label_folder",
      plain_builder "image_label_folder" "tensorflow_datasets.image.image_folder");
   ("alpha", plain_builder "alpha" "tensorflow_datasets.text.alpha");
   ("dummy", plain_builder "dummy" "tensorflow_datasets.testing.test_utils");
   ("multi", multi_builder small);
   ("mid", plain_builder "mid" "tensorflow_datasets.text.mid");
   ("mnist", plain_builder "mnist" "tensorflow_datasets.image.mnist")].

Definition find_builder (nm : string) : result DatasetBuilder :=
  match list_find (λ entry, entry.1 = nm) registry with
  | Some (_, (_, b)) => Ok b
  | None => Raise DatasetNotFoundError
  end.

Definition str_keys (keys : option (string * string)) : string :=
  match keys with
  | None => "None"
  | Some (a, b) => "('" +:+ a +:+ "', '" +:+ b +:+ "')"
  end.

#[global] Instance env : Env :=
  {| tfds_builder nm kwargs :=
       match kwargs with
       | ConfigKwarg config =>
           if String.eqb nm "multi" then Ok (multi_builder config)
           else Raise DatasetNotFoundError
       | _ => find_builder nm
       end;
     tfds_list_builders := map fst registry;
     size_str n := str_int n +:+ " bytes";
     module_file m := replace "." "/" m +:+ ".pyc";
     relpath_tfds_dir f := String.substring 20 (String.length f - 20) f;
     str_supervised_keys := str_keys |}.



(** The schema [{b: leaf2, a: leaf1}] and the same mapping iterating in
    the other order. *)
Definition schema_b_a : FeaturesDict :=
  MkFeaturesDict "FeaturesDict" [("b", Leaf "leaf2"); ("a", Leaf "leaf1")].

Definition schema_a_b : FeaturesDict :=
  MkFeaturesDict "FeaturesDict" [("a", Leaf "leaf1"); ("b", Leaf "leaf2")].

Definition inner_schema : FeaturesDict :=
  MkFeaturesDict "FeaturesDict" [("x", Leaf "leaf")].

Definition outer_schema : FeaturesDict :=
  MkFeaturesDict "FeaturesDict" [("a", Nested inner_schema)].

Definition mnist : DatasetBuilder :=
  plain_builder "mnist" "tensorflow_datasets.image.mnist".

(** A builder whose info record lists no URL. *)
Definition no_url_builder : DatasetBuilder :=
  builder_with_info "mnist" "tensorflow_datasets.image.mnist"
    (stats_info None [] []).

Definition image_label_folder : DatasetBuilder :=
  plain_builder "image_label_folder" "tensorflow_datasets.image.image_folder".

Definition dummy : DatasetBuilder :=
  plain_builder "dummy" "tensorflow_datasets.testing.test_utils".

Definition zeta : DatasetBuilder :=
  plain_builder "zeta" "tensorflow_datasets.text.zeta".

Definition alpha : DatasetBuilder :=
  plain_builder "alpha" "tensorflow_datasets.text.alpha".

Definition mid : DatasetBuilder :=
  plain_builder "mid" "tensorflow_datasets.text.mid".

(** The hierarchy of the names [zeta], [alpha], [mid]. *)
Definition text_sections : Sections :=
  {[ "text" := {[ "zeta" := [zeta] ]} ∪ {[ "alpha" := [alpha] ]}
                 ∪ {[ "mid" := [mid] ]} ]}.

(** The hierarchy of the names [mnist], [image_label_folder]. *)
Definition image_sections : Sections :=
  {[ "image" := {[ "mnist" := [mnist] ]}
                  ∪ {[ "image_folder" := [image_label_folder] ]} ]}.

(** The hierarchy of the default enumeration. *)
Definition default_sections : Sections :=
  {[ "image" := {[ "mnist" := [mnist] ]}
                  ∪ {[ "image_folder" := [image_label_folder] ]} ]}
  ∪ {[ "text" := {[ "zeta" := [zeta] ]} ∪ {[ "alpha" := [alpha] ]}
                   ∪ {[ "multi" := [multi_builder small] ]}
                   ∪ {[ "mid" := [mid] ]} ]}.

End Demo.

(** ** A registry with module paths the grouping cannot file *)

Module Stray.

Definition flat : DatasetBuilder :=
  Demo.plain_builder "flat" "flat_module".

Definition deep : DatasetBuilder :=
  Demo.plain_builder "deep" "tensorflow_datasets.image.deep.inner".

Definition deep_testing : DatasetBuilder :=
  Demo.plain_builder "deep_testing" "tensorflow_datasets.testing.a.b.c".

Definition elsewhere : DatasetBuilder :=
  Demo.plain_builder "elsewhere" "other_package.image.elsewhere".

Definition registry : list (string * DatasetBuilder) :=
  [("mnist", Demo.mnist); ("flat", flat); ("deep", deep);
   ("deep_testing", deep_testing); ("elsewhere", elsewhere);
   ("image_label_folder", Demo.image_label_folder)].

Definition find_builder (nm : string) : result DatasetBuilder :=
  match list_find (λ entry, entry.1 = nm) registry with
  | Some (_, (_, b)) => Ok b
  | None => Raise DatasetNotFoundError
  end.

(** Of the configurations of [multi] this registry knows all but [large]. *)
Definition env : Env :=
  {| tfds_builder nm kwargs :=
       match kwargs with
       | ConfigKwarg config =>
           if String.eqb nm "multi"
              && negb (String.eqb (config_name config) "large")
           then Ok (Demo.multi_builder config)
           else Raise DatasetNotFoundError
       | _ => find_builder nm
       end;
     tfds_list_builders := map fst registry;
     size_str n := str_int n +:+ " bytes";
     module_file m := replace "." "/" m +:+ ".py";
     relpath_tfds_dir f := String.substring 20 (String.length f - 20) f;
     str_supervised_keys := Demo.str_keys |}.

(** A registry that lists [mnist] and cannot build the designated
    builder. *)
Definition bare_env : Env :=
  {| tfds_builder nm kwargs :=
       match kwargs with
       | NoKwargs =>
           if String.eqb nm "mnist" then Ok Demo.mnist
           else Raise DatasetNotFoundError
       | _ => Raise DatasetNotFoundError
       end;
     tfds_list_builders := ["mnist"; "image_label_folder"];
     size_str n := str_int n +:+ " KiB";
     module_file m := replace "." "/" m +:+ ".py";
     relpath_tfds_dir f := String.substring 20 (String.length f - 20) f;
     str_supervised_keys := Demo.str_keys |}.

End Stray.
(** ** Vocabulary of the statements *)

(** [a] may stand before [b] in a list sorted with [lt]. *)
Definition not_after {A} (lt : A → A → bool) (a b : A) : Prop := lt b a = false.

(** Descending order on the rows [(count, label)] of the statistics table:
    a larger count first, and on equal counts the larger label first. *)
Definition row_ge (a b : Z * string) : Prop :=
  (b.1 < a.1)%Z ∨ (a.1 = b.1 ∧ String.le b.2 a.2).

(** The rows before sorting: the aggregate, then the splits as iterated. *)
Definition unsorted_stats (total : Z) (splits : SplitDict) : list (Z * string) :=
  (total, "ALL")
    :: map (λ kv, (num_examples kv.2, upper kv.1)) (split_items splits).


(** [features_dict[k]] on the items of a mapping. *)
Fixpoint getitem (k : string) (items : list (string * Feature)) : option Feature :=
  match items with
  | [] => None
  | (k', v) :: items' => if String.eqb k k' then Some v else getitem k items'
  end.

Definition items_of (d : FeaturesDict) : list (string * Feature) :=
  let 'MkFeaturesDict _ items := d in items.

Definition keys_of (d : FeaturesDict) : list string := map fst (items_of d).

(** The text of a value inside a mapping that is rendered at [indent]: a
    leaf by its own text, a nested mapping by the inner call, four
    columns further in and with [add_prefix=False]. *)
Definition value_str (indent : Z) (v : Feature) : string :=
  match v with
  | Leaf text => text
  | Nested d => _pprint_features_dict d (indent + 4) false
  end.

(** The line of key [k] in a mapping rendered at [indent]. *)
Definition entry_line (indent : Z) (items : list (string * Feature))
    (k : string) : string :=
  str_mul " " (indent + 4) +:+ "'" +:+ k +:+ "': "
    +:+ from_option (value_str indent) EmptyString (getitem k items) +:+ ",".

(** Two schema objects that are the same mapping and differ at most in
    the order in which they iterate: the same type name, the same keys,
    and under every key the same leaf or again the same mapping. *)
Inductive same_mapping : FeaturesDict → FeaturesDict → Prop :=
| same_mapping_intro (type_name : string) (items1 items2 : list (string * Feature)) :
    map fst items1 ≡ₚ map fst items2 →
    (∀ k v1 v2, getitem k items1 = Some v1 → getitem k items2 = Some v2 →
                same_feature v1 v2) →
    same_mapping (MkFeaturesDict type_name items1) (MkFeaturesDict type_name items2)
with same_feature : Feature → Feature → Prop :=
| same_leaf (text : string) : same_feature (Leaf text) (Leaf text)
| same_nested (d1 d2 : FeaturesDict) :
    same_mapping d1 d2 → same_feature (Nested d1) (Nested d2).

(** The builders filed under a three-segment module path, none when the
    path was never reached. *)
Definition bucket_at (tree : ModuleTree) (m1 m2 m3 : string) : list DatasetBuilder :=
  default [] (default ∅ (default ∅ (tree !! m1) !! m2) !! m3).

(** The same inside the returned hierarchy, whose root segment is gone. *)
Definition section_bucket (m : Sections) (m2 m3 : string) : list DatasetBuilder :=
  default [] (default ∅ (m !! m2) !! m3).

Definition in_testing (builder : DatasetBuilder) : Prop :=
  "testing" ∈ split "." (cls_module builder).

(** The builder is filed under the given path, and outside [testing]. *)
Definition filed_under (m1 m2 m3 : string) (builder : DatasetBuilder) : Prop :=
  ¬ in_testing builder ∧ split "." (cls_module builder) = [m1; m2; m3].

Global Instance in_testing_dec (builder : DatasetBuilder) : Decision (in_testing builder).
Proof. unfold in_testing. apply _. Defined.

Global Instance filed_under_dec (m1 m2 m3 : string) (builder : DatasetBuilder) :
  Decision (filed_under m1 m2 m3 builder).
Proof. unfold filed_under. apply _. Defined.

(** The loop of the grouping accepts the builder: it is skipped, or its
    module path has the three segments the nested dictionaries expect. *)
Definition placeable (builder : DatasetBuilder) : Prop :=
  in_testing builder
  ∨ ∃ m1 m2 m3, split "." (cls_module builder) = [m1; m2; m3].

(** Key [m2] is present below [m1], and key [m3] below [m1] and [m2]. *)
Definition has_section (tree : ModuleTree) (m1 m2 : string) : Prop :=
  is_Some (default ∅ (tree !! m1) !! m2).

Definition has_leaf (tree : ModuleTree) (m1 m2 m3 : string) : Prop :=
  is_Some (default ∅ (default ∅ (tree !! m1) !! m2) !! m3).

(** The builder belongs to the section: it is outside [testing] and its
    module path is [tensorflow_datasets], the section, and one leaf. *)
Definition in_section (section : string) (builder : DatasetBuilder) : Prop :=
  ¬ in_testing builder
  ∧ length (split "." (cls_module builder)) = 3
  ∧ take 2 (split "." (cls_module builder)) = ["tensorflow_datasets"; section].

Global Instance in_section_dec (section : string) (builder : DatasetBuilder) :
  Decision (in_section section builder).
Proof. unfold in_section. apply _. Defined.
(** ** Sorting *)

Section sort_with_facts.
Context {A : Type} (lt : A → A → bool).

Lemma insert_sorted_perm (x : A) (l : list A) : insert_sorted lt x l ≡ₚ x :: l.
Proof.
  induction l as [|y l IH]; simpl; [done|].
  destruct (lt y x); [|done].
  rewrite IH. apply Permutation_swap.
Qed.

Lemma sort_with_perm (l : list A) : sort_with lt l ≡ₚ l.
Proof.
  induction l as [|x l IH]; simpl; [done|].
  by rewrite insert_sorted_perm, IH.
Qed.

Hypothesis lt_asym : ∀ a b, lt a b = true → lt b a = false.
Hypothesis not_after_trans :
  ∀ a b c, not_after lt a b → not_after lt b c → not_after lt a c.

Lemma insert_sorted_sorted (x : A) (l : list A) :
  StronglySorted (not_after lt) l →
  StronglySorted (not_after lt) (insert_sorted lt x l).
Proof.
  induction 1 as [|y l Hl IH Hy]; simpl.
  - repeat constructor.
  - destruct (lt y x) eqn:Hyx.
    + constructor; [done|].
      rewrite insert_sorted_perm. constructor; [|done].
      by apply lt_asym.
    + constructor; [by constructor|].
      constructor; [done|].
      eapply Forall_impl; [exact Hy|].
      intros z Hz. by apply (not_after_trans x y z).
Qed.

Lemma sort_with_sorted (l : list A) : StronglySorted (not_after lt) (sort_with lt l).
Proof.
  induction l as [|x l IH]; simpl; [constructor|].
  by apply insert_sorted_sorted.
Qed.

End sort_with_facts.

Lemma StronglySorted_weaken {A} (R1 R2 : A → A → Prop) (l : list A) :
  (∀ a b, R1 a b → R2 a b) → StronglySorted R1 l → StronglySorted R2 l.
Proof.
  intros HR. induction 1 as [|x l Hl IH Hx]; constructor; [done|].
  eapply Forall_impl; [exact Hx|]. intros y. apply HR.
Qed.

(** *** The order on strings *)

Lemma ltb_false_le (a b : string) : String.ltb b a = false ↔ String.le a b.
Proof.
  unfold String.le, String.ltb, String.leb.
  rewrite (String.compare_antisym b a).
  destruct (String.compare a b); simpl; split; intros; done.
Qed.

Lemma ltb_true_not_le (a b : string) : String.ltb b a = true ↔ ¬ String.le a b.
Proof.
  rewrite <- ltb_false_le. destruct (String.ltb b a); naive_solver.
Qed.

Lemma ltb_asym (a b : string) : String.ltb a b = true → String.ltb b a = false.
Proof.
  rewrite ltb_true_not_le, ltb_false_le. intros Hba.
  by destruct (total String.le a b).
Qed.

Lemma sorted_sorted (l : list string) : StronglySorted String.le (sorted l).
Proof.
  eapply StronglySorted_weaken; last apply (sort_with_sorted String.ltb).
  - intros a b. apply ltb_false_le.
  - apply ltb_asym.
  - intros a b c. unfold not_after. rewrite !ltb_false_le. apply transitivity.
Qed.

Lemma sorted_perm (l : list string) : sorted l ≡ₚ l.
Proof. apply sort_with_perm. Qed.

Lemma sorted_key_sorted {A} (f : A → string) (l : list A) :
  StronglySorted (λ a b, String.le (f a) (f b)) (sorted_key f l).
Proof.
  eapply StronglySorted_weaken;
    last apply (sort_with_sorted (λ a b, String.ltb (f a) (f b))).
  - intros a b. apply ltb_false_le.
  - intros a b. apply ltb_asym.
  - intros a b c. unfold not_after. rewrite !ltb_false_le. apply transitivity.
Qed.

Lemma sorted_key_perm {A} (f : A → string) (l : list A) : sorted_key f l ≡ₚ l.
Proof. apply sort_with_perm. Qed.

(** Two sorted lists of the same strings are the same list. *)
Lemma sorted_of_perm (l1 l2 : list string) : l1 ≡ₚ l2 → sorted l1 = sorted l2.
Proof.
  intros Hl. apply (StronglySorted_unique String.le); try apply sorted_sorted.
  by rewrite !sorted_perm.
Qed.

(** *** The order on rows *)

Lemma tuple_ltb_false (a b : Z * string) : tuple_ltb a b = false ↔ row_ge a b.
Proof.
  unfold tuple_ltb, row_ge.
  rewrite orb_false_iff, andb_false_iff, Z.ltb_ge, Z.eqb_neq, ltb_false_le.
  split.
  - intros [? [?|?]]; [left; lia|].
    destruct (decide (a.1 = b.1)); [by right|left; lia].
  - intros [?|[? ?]]; (split; [lia|]); [left; lia|by right].
Qed.

Lemma row_ge_trans (a b c : Z * string) : row_ge a b → row_ge b c → row_ge a c.
Proof.
  unfold row_ge. intros [?|[? ?]] [?|[? ?]]; try (left; lia).
  right. split; [lia|]. by etrans.
Qed.

Lemma tuple_ltb_asym (a b : Z * string) : tuple_ltb b a = true → tuple_ltb a b = false.
Proof.
  intros Hba. apply tuple_ltb_false.
  destruct (tuple_ltb a b) eqn:Hab; [|by apply tuple_ltb_false].
  unfold tuple_ltb in *.
  apply orb_true_iff in Hba as [?%Z.ltb_lt|[?%Z.eqb_eq Hs1]%andb_true_iff];
    apply orb_true_iff in Hab as [?%Z.ltb_lt|[?%Z.eqb_eq Hs2]%andb_true_iff];
    try lia.
  apply ltb_asym in Hs1. congruence.
Qed.

Lemma sort_reverse_sorted (l : list (Z * string)) :
  StronglySorted row_ge (sort_reverse l).
Proof.
  eapply StronglySorted_weaken;
    last apply (sort_with_sorted (λ a b, tuple_ltb b a)).
  - intros a b. apply tuple_ltb_false.
  - intros a b. apply tuple_ltb_asym.
  - intros a b c. unfold not_after. rewrite !tuple_ltb_false. apply row_ge_trans.
Qed.

Lemma sort_reverse_perm (l : list (Z * string)) : sort_reverse l ≡ₚ l.
Proof. apply sort_with_perm. Qed.

(** ** The statistics renderer *)

(** C9.  When the total number of examples is unset or zero,
    [make_statistics_information] returns exactly ["None computed"]; the
    function has a value on every info record, so nothing is raised. *)
Theorem statistics_none_computed (info : DatasetInfo) :
  total_num_examples (splits info) = None
    ∨ total_num_examples (splits info) = Some 0%Z →
  make_statistics_information info = "None computed".
Proof.
  unfold make_statistics_information. by intros [-> | ->].
Qed.

Lemma statistics_none_computed_witness :
  make_statistics_information (Demo.stats_info None Demo.mnist_splits [])
    = "None computed"
  ∧ make_statistics_information (Demo.stats_info (Some 0%Z) Demo.mnist_splits [])
    = "None computed".
Proof.
  split; apply statistics_none_computed; [left|right]; reflexivity.
Defined.

(** C2, as the script has it.  With a total other than zero the table
    holds the aggregate row ["ALL"] with the total and one row per split
    with the upper-cased split name and its count, and nothing else; the
    rows are sorted descending by count, rows of equal count by
    descending label.  The aggregate row is therefore not always first. *)
Theorem statistics_rows_sorted (info : DatasetInfo) (total : Z) :
  total_num_examples (splits info) = Some total →
  total ≠ 0%Z →
  make_statistics_information info
    = STATISTICS_TABLE
        (join nl (map format_stat (sorted_stats total (splits info))))
  ∧ sorted_stats total (splits info) ≡ₚ unsorted_stats total (splits info)
  ∧ StronglySorted row_ge (sorted_stats total (splits info)).
Proof.
  intros Htotal Hnz. split_and!.
  - unfold make_statistics_information. rewrite Htotal.
    by apply Z.eqb_neq in Hnz as ->.
  - unfold sorted_stats, unsorted_stats. rewrite sort_reverse_perm. simpl.
    constructor. erewrite map_ext; [done|]. by intros [??].
  - apply sort_reverse_sorted.
Qed.

Lemma statistics_rows_sorted_witness :
  let info := Demo.stats_info (Some 60000%Z) Demo.mnist_splits [] in
  sorted_stats 60000 (splits info)
    = [(60000%Z, "TRAIN"); (60000%Z, "ALL"); (10000%Z, "TEST")]
  ∧ make_statistics_information info
    = unlines [ "Split  | Examples";
                ":----- | ---:";
                "TRAIN      |     60,000";
                "ALL        |     60,000";
                "TEST       |     10,000" ]
  ∧ StronglySorted row_ge (sorted_stats 60000 (splits info)).
Proof.
  intros info.
  destruct (statistics_rows_sorted info 60000 eq_refl) as (Hout & _ & Hsorted).
  - lia.
  - split_and!; [reflexivity| |exact Hsorted].
    rewrite Hout. reflexivity.
Defined.

(** At the input of the claim the first row is TRAIN, not the aggregate. *)
Lemma statistics_first_row_not_aggregate :
  let info := Demo.stats_info (Some 60000%Z) Demo.mnist_splits [] in
  total_num_examples (splits info) = Some 60000%Z
  ∧ head (sorted_stats 60000 (splits info)) = Some (60000%Z, "TRAIN")
  ∧ make_statistics_information info
    ≠ STATISTICS_TABLE
        (join nl (map format_stat
           [(60000%Z, "ALL"); (60000%Z, "TRAIN"); (10000%Z, "TEST")])).
Proof.
  split_and!; [reflexivity..|].
  vm_compute. discriminate.
Qed.

(** ** The URL field *)

Lemma url_from_info_nil (info : DatasetInfo) :
  urls info = [] → url_from_info info = "<no known url>".
Proof. unfold url_from_info. by intros ->. Qed.

Lemma url_from_info_cons (info : DatasetInfo) (url : string) (rest : list string) :
  urls info = url :: rest →
  url_from_info info = if decide (url = EmptyString) then "<no known url>" else url.
Proof.
  unfold url_from_info. intros ->.
  destruct (String.eqb_spec url EmptyString); by case_decide.
Qed.

Section plain_entry.
Context `{Env}.

Lemma document_plain_builder (builder : DatasetBuilder) :
  builder_configs builder = [] →
  ∃ f, document_single_builder_args builder = Ok (PlainEntry f)
     ∧ document_single_builder builder = Ok (DATASET_ENTRY f)
     ∧ de_url f = url_from_info (info builder).
Proof.
  intros Hnone. unfold document_single_builder, document_single_builder_args.
  rewrite Hnone. eexists. split_and!; reflexivity.
Qed.

(** C10, as the script has it.  For a builder without configurations
    the entry is always rendered, and its URL field is the sentinel
    ["<no known url>"] when the URL sequence is empty, the first URL when
    that URL is not the empty string, and the sentinel again when the
    first URL is the empty string. *)
Theorem url_field_of_entry (builder : DatasetBuilder) :
  builder_configs builder = [] →
  ∃ f, document_single_builder_args builder = Ok (PlainEntry f)
     ∧ document_single_builder builder = Ok (DATASET_ENTRY f)
     ∧ (urls (info builder) = [] → de_url f = "<no known url>")
     ∧ (∀ url rest, urls (info builder) = url :: rest →
          url ≠ EmptyString → de_url f = url)
     ∧ (∀ rest, urls (info builder) = EmptyString :: rest →
          de_url f = "<no known url>").
Proof.
  intros Hnone.
  destruct (document_plain_builder builder Hnone) as (f & Hargs & Hdoc & Hurl).
  exists f. split_and!; [done..| | |].
  - intros Hnil. rewrite Hurl. by apply url_from_info_nil.
  - intros url rest Hcons Hne. rewrite Hurl, (url_from_info_cons _ _ _ Hcons).
    by case_decide.
  - intros rest Hcons. rewrite Hurl, (url_from_info_cons _ _ _ Hcons).
    by case_decide.
Qed.

End plain_entry.

Lemma url_field_of_entry_witness :
  let builder :=
    Demo.builder_with_info "mnist" "tensorflow_datasets.image.mnist"
      (Demo.stats_info None [] ["http://x"; "http://y"]) in
  ∃ f, document_single_builder_args builder = Ok (PlainEntry f)
     ∧ de_url f = "http://x".
Proof.
  intros builder.
  destruct (url_field_of_entry builder eq_refl) as (f & Hargs & _ & _ & Hfirst & _).
  exists f. split; [exact Hargs|].
  apply (Hfirst "http://x" ["http://y"]); [reflexivity|discriminate].
Defined.

(** A first URL that is the empty string is not what the entry shows. *)
Lemma url_field_empty_first_url :
  let info := Demo.stats_info None [] [EmptyString; "http://y"] in
  let builder :=
    Demo.builder_with_info "mnist" "tensorflow_datasets.image.mnist" info in
  head (urls info) = Some EmptyString
  ∧ url_from_info info = "<no known url>"
  ∧ ∃ f, document_single_builder_args builder = Ok (PlainEntry f)
       ∧ de_url f = "<no known url>"
       ∧ Some (de_url f) ≠ head (urls info).
Proof.
  split_and!; [reflexivity..|].
  eexists. split_and!; [reflexivity..|]. discriminate.
Qed.

(** ** The feature-tree renderer *)

(** Induction on a schema object, with the hypothesis for every nested
    mapping among its values. *)
Lemma FeaturesDict_nested_ind (P : FeaturesDict → Prop) :
  (∀ type_name items,
     (∀ k d, (k, Nested d) ∈ items → P d) → P (MkFeaturesDict type_name items)) →
  ∀ d, P d.
Proof.
  intros step. fix rec 1. intros [type_name items]. apply step.
  induction items as [|[k v] items IHitems]; intros k' d' Hin.
  - exfalso. exact (proj1 (elem_of_nil _) Hin).
  - destruct v as [text|d0].
    + apply elem_of_cons in Hin as [Heq|Hin]; [discriminate Heq|].
      eapply IHitems. exact Hin.
    + pose proof (rec d0) as Hd0. clear rec.
      apply elem_of_cons in Hin as [Heq|Hin].
      * injection Heq as _ ->. exact Hd0.
      * eapply IHitems. exact Hin.
Qed.

Lemma getitem_elem_of (k : string) (v : Feature) (items : list (string * Feature)) :
  getitem k items = Some v → (k, v) ∈ items.
Proof.
  induction items as [|[k' v'] items IH]; simpl; [done|].
  destruct (String.eqb_spec k k') as [->|Hne].
  - intros [= ->]. left.
  - intros Hget. right. by apply IH.
Qed.

Lemma getitem_is_Some (k : string) (items : list (string * Feature)) :
  k ∈ map fst items → is_Some (getitem k items).
Proof.
  induction items as [|[k' v'] items IH]; simpl.
  - by intros ?%elem_of_nil.
  - destruct (String.eqb_spec k k') as [->|Hne]; [by eauto|].
    intros [?|?]%elem_of_cons; [done|by apply IH].
Qed.

(** The loop of the renderer, with the lookup spelled out. *)
Lemma pprint_lines_unfold (type_name : string) (items : list (string * Feature))
    (indent : Z) (add_prefix : bool) :
  pprint_lines (MkFeaturesDict type_name items) indent add_prefix
  = [(if add_prefix then str_mul " " indent else EmptyString)
       +:+ type_name +:+ "({"]
    ++ map (entry_line indent items) (sorted (map fst items))
    ++ [str_mul " " indent +:+ "})"].
Proof.
  cbn [pprint_lines]. do 2 f_equal. apply map_ext. intros k.
  unfold entry_line. do 4 f_equal.
  induction items as [|[k' v] items IH]; [done|].
  cbn [getitem]. destruct (String.eqb k k'); [|exact IH].
  by destruct v.
Qed.

Lemma pprint_lines_same_mapping (d : FeaturesDict) :
  ∀ d' indent add_prefix,
    same_mapping d d' →
    pprint_lines d' indent add_prefix = pprint_lines d indent add_prefix.
Proof.
  induction d as [type_name items IH] using FeaturesDict_nested_ind.
  intros d' indent add_prefix Hsame.
  inversion Hsame as [tn items1 items2 Hkeys Hvals]; subst.
  rewrite !pprint_lines_unfold, <- (sorted_of_perm _ _ Hkeys).
  do 2 f_equal. apply map_ext_in. intros k Hk%list_elem_of_In.
  rewrite sorted_perm in Hk.
  destruct (getitem_is_Some k items Hk) as [v1 Hv1].
  rewrite Hkeys in Hk.
  destruct (getitem_is_Some k items2 Hk) as [v2 Hv2].
  unfold entry_line. rewrite Hv1, Hv2. simpl. do 4 f_equal.
  destruct (Hvals k v1 v2 Hv1 Hv2) as [text|d1 d2 Hd]; [done|].
  unfold value_str, _pprint_features_dict.
  rewrite (IH k d1); [done|by apply getitem_elem_of|done].
Qed.

(** C6.  The renderer emits, between its opening and its closing line,
    one line per key, in lexicographic order of the keys, whatever the
    order in which the mapping iterates: the keys it walks are sorted and
    are those of the mapping, and a schema object that is the same
    mapping in another iteration order renders to the same text. *)
Theorem pprint_keys_sorted (d : FeaturesDict) (indent : Z) (add_prefix : bool) :
  (∃ first_line last_line,
     pprint_lines d indent add_prefix
     = [first_line]
       ++ map (entry_line indent (items_of d)) (sorted (keys_of d))
       ++ [last_line])
  ∧ StronglySorted String.le (sorted (keys_of d))
  ∧ sorted (keys_of d) ≡ₚ keys_of d
  ∧ ∀ d', same_mapping d d' →
      _pprint_features_dict d' indent add_prefix
      = _pprint_features_dict d indent add_prefix.
Proof.
  split_and!.
  - destruct d as [type_name items]. rewrite pprint_lines_unfold. by do 2 eexists.
  - apply sorted_sorted.
  - apply sorted_perm.
  - intros d' Hsame. unfold _pprint_features_dict.
    by rewrite (pprint_lines_same_mapping d d').
Qed.

Lemma schema_b_a_same : same_mapping Demo.schema_b_a Demo.schema_a_b.
Proof.
  constructor.
  - apply Permutation_swap.
  - intros k v1 v2. simpl.
    destruct (String.eqb_spec k "b") as [->|_].
    { simpl. intros [= <-] [= <-]. constructor. }
    destruct (String.eqb_spec k "a") as [->|_]; [|done].
    intros [= <-] [= <-]. constructor.
Qed.

Lemma pprint_keys_sorted_witness :
  _pprint_features_dict Demo.schema_b_a 0 true
    = join nl [ "FeaturesDict({"; "    'a': leaf1,"; "    'b': leaf2,"; "})" ]
  ∧ _pprint_features_dict Demo.schema_a_b 0 true
    = _pprint_features_dict Demo.schema_b_a 0 true.
Proof.
  split; [reflexivity|].
  apply (pprint_keys_sorted Demo.schema_b_a 0 true). exact schema_b_a_same.
Defined.

(** C7, as the script has it.  Every call, the outermost and the nested
    ones, opens with the type name of its container followed by ["({"];
    [add_prefix] decides only whether that opening line is indented: the
    outermost call indents it, a nested call does not, its text
    continuing the line of its key.  The lines of the keys are indented
    four columns more than the call, the closing line as much as the
    call; a nested mapping is rendered by a call four columns further
    in, a leaf by its own text. *)
Theorem pprint_lines_shape (type_name : string) (items : list (string * Feature))
    (indent : Z) :
  pprint_lines (MkFeaturesDict type_name items) indent true
  = [str_mul " " indent +:+ type_name +:+ "({"]
    ++ map (entry_line indent items) (sorted (map fst items))
    ++ [str_mul " " indent +:+ "})"]
  ∧ pprint_lines (MkFeaturesDict type_name items) indent false
  = [type_name +:+ "({"]
    ++ map (entry_line indent items) (sorted (map fst items))
    ++ [str_mul " " indent +:+ "})"]
  ∧ (∀ k, entry_line indent items k
          = str_mul " " (indent + 4) +:+ "'" +:+ k +:+ "': "
              +:+ match getitem k items with
                  | Some (Leaf text) => text
                  | Some (Nested d) =>
                      join nl (pprint_lines d (indent + 4) false)
                  | None => EmptyString
                  end +:+ ",").
Proof.
  split; [apply pprint_lines_unfold|].
  split; [apply pprint_lines_unfold|].
  intros k. reflexivity.
Qed.

(** A nested call writes the type name too. *)
Lemma nested_call_keeps_type_name :
  head (pprint_lines Demo.inner_schema 4 false) = Some "FeaturesDict({"
  ∧ _pprint_features_dict Demo.outer_schema 0 true
    = join nl [ "FeaturesDict({";
                "    'a': FeaturesDict({";
                "        'x': leaf,";
                "    }),";
                "})" ].
Proof. split; reflexivity. Qed.

(** ** The namespace grouping *)

Lemma mapM_Ok_elem_of {A B} (f : A → result B) (l : list A) (ys : list B) (x : A) (y : B) :
  mapM f l = Ok ys → x ∈ l → f x = Ok y → y ∈ ys.
Proof.
  revert ys. induction l as [|a l IH]; intros ys; simpl.
  - by intros _ ?%elem_of_nil.
  - destruct (f a) as [b|e] eqn:Hfa; simpl; [|done].
    destruct (mapM f l) as [bs|e] eqn:Hl; simpl; [|done].
    intros [= <-] [->|Hx]%elem_of_cons Hfx.
    + rewrite Hfa in Hfx. injection Hfx as ->. left.
    + right. by apply (IH bs).
Qed.

Section grouping.
Context `{Env}.

Lemma place_builder_testing (tree : ModuleTree) (builder : DatasetBuilder) :
  in_testing builder → place_builder tree builder = Ok tree.
Proof.
  intros Htesting. unfold place_builder. by rewrite bool_decide_true.
Qed.

(** One round of the loop appends the builder to the bucket of its
    path and leaves every other bucket alone. *)
Lemma bucket_at_place (tree tree' : ModuleTree) (builder : DatasetBuilder)
    (m1 m2 m3 : string) :
  place_builder tree builder = Ok tree' →
  bucket_at tree' m1 m2 m3
  = bucket_at tree m1 m2 m3
      ++ (if decide (filed_under m1 m2 m3 builder) then [builder] else []).
Proof.
  unfold place_builder. case_bool_decide as Htesting.
  { intros [= <-]. rewrite decide_False by (by intros [? _]).
    by rewrite app_nil_r. }
  destruct (split "." (cls_module builder)) as [|a [|b [|c [|? ?]]]] eqn:Hpath;
    try done.
  assert (∀ x y z, filed_under x y z builder ↔ a = x ∧ b = y ∧ c = z) as Hfiled.
  { intros x y z. unfold filed_under, in_testing. rewrite Hpath. split.
    - by intros [_ [= -> -> ->]].
    - by intros (-> & -> & ->). }
  intros [= <-]. unfold bucket_at.
  destruct (decide (a = m1)) as [->|Hm1].
  - rewrite lookup_insert_eq. simpl.
    destruct (decide (b = m2)) as [->|Hm2].
    + rewrite lookup_insert_eq. simpl.
      destruct (decide (c = m3)) as [->|Hm3].
      * rewrite lookup_insert_eq. simpl. by rewrite decide_True by by apply Hfiled.
      * rewrite lookup_insert_ne by done.
        rewrite decide_False by (rewrite Hfiled; intros (? & ? & ?); congruence).
        by rewrite app_nil_r.
    + rewrite lookup_insert_ne by done.
      rewrite decide_False by (rewrite Hfiled; intros (? & ? & ?); congruence).
      by rewrite app_nil_r.
  - rewrite lookup_insert_ne by done.
    rewrite decide_False by (rewrite Hfiled; intros (? & ? & ?); congruence).
    by rewrite app_nil_r.
Qed.

(** Every bucket accumulates the builders of its path in encounter
    order. *)
Lemma bucket_at_for_each (builders : list DatasetBuilder) :
  ∀ (tree tree' : ModuleTree) (m1 m2 m3 : string),
    for_each place_builder builders tree = Ok tree' →
    bucket_at tree' m1 m2 m3
    = bucket_at tree m1 m2 m3 ++ filter (filed_under m1 m2 m3) builders.
Proof.
  induction builders as [|b builders IH]; intros tree tree' m1 m2 m3; simpl.
  - intros [= <-]. by rewrite app_nil_r.
  - destruct (place_builder tree b) as [tree1|e] eqn:Hplace; simpl; [|done].
    intros Hrest. rewrite (IH _ _ _ _ _ Hrest), (bucket_at_place _ _ _ _ _ _ Hplace).
    rewrite filter_cons, <- app_assoc. by case_decide.
Qed.

(** The builders under [testing] can be left out of the loop. *)
Lemma for_each_skips_testing (builders : list DatasetBuilder) (tree : ModuleTree) :
  for_each place_builder builders tree
  = for_each place_builder (filter (λ b, ¬ in_testing b) builders) tree.
Proof.
  revert tree. induction builders as [|b builders IH]; intros tree; [done|].
  rewrite filter_cons. case_decide as Htesting; simpl.
  - destruct (place_builder tree b); simpl; [apply IH|done].
  - rewrite (place_builder_testing _ _ Htesting). simpl. apply IH.
Qed.

Lemma section_bucket_lookup (m : Sections) (section leaf : string)
    (d : Bucket) (bucket : list DatasetBuilder) :
  m !! section = Some d → d !! leaf = Some bucket →
  section_bucket m section leaf = bucket.
Proof.
  unfold section_bucket. intros Hsection Hleaf.
  rewrite Hsection. simpl. by rewrite Hleaf.
Qed.

(** The returned hierarchy holds, under each path, the collected
    builders of that path below the root [tensorflow_datasets]. *)
Lemma section_bucket_make (datasets : option (list string)) (m : Sections)
    (m2 m3 : string) :
  make_module_to_builder_dict datasets = Ok m →
  ∃ builders,
    collect_builders datasets = Ok builders
    ∧ section_bucket m m2 m3
      = filter (filed_under "tensorflow_datasets" m2 m3) builders.
Proof.
  unfold make_module_to_builder_dict.
  destruct (collect_builders datasets) as [builders|e]; simpl; [|done].
  destruct (for_each place_builder builders ∅) as [tree|e] eqn:Htree; simpl; [|done].
  intros [= <-]. exists builders. split; [done|].
  pose proof (bucket_at_for_each _ _ _ "tensorflow_datasets" m2 m3 Htree) as Hb.
  unfold bucket_at in Hb. rewrite lookup_empty in Hb. simpl in Hb.
  rewrite lookup_empty in Hb. simpl in Hb. rewrite lookup_empty in Hb.
  exact Hb.
Qed.

(** C8.  No builder whose module path has a [testing] segment is in the
    hierarchy, in the default enumeration and with an explicit list
    alike; such builders are skipped before anything is done with them,
    so the loop runs as if they were not among the builders. *)
Theorem testing_builders_excluded (datasets : option (list string)) (m : Sections) :
  make_module_to_builder_dict datasets = Ok m →
  (∀ section d leaf bucket builder,
     m !! section = Some d → d !! leaf = Some bucket → builder ∈ bucket →
     "testing" ∉ split "." (cls_module builder))
  ∧ (∀ builders tree,
       for_each place_builder builders tree
       = for_each place_builder
           (filter (λ b, "testing" ∉ split "." (cls_module b)) builders) tree).
Proof.
  intros Hm. split.
  - intros section d leaf bucket builder Hsection Hleaf Hin.
    destruct (section_bucket_make datasets m section leaf Hm) as (bs & _ & Hbucket).
    rewrite (section_bucket_lookup _ _ _ _ _ Hsection Hleaf) in Hbucket.
    rewrite Hbucket in Hin. apply list_elem_of_filter in Hin as [[Hout _] _].
    exact Hout.
  - intros builders tree. apply for_each_skips_testing.
Qed.

(** C3, as the script has it.  In the default enumeration the
    designated builder is left out of the listed names but built apart,
    with its extra argument, and appended after the listed builders;
    requested by name it is built like any other.  Either way it is
    filed in the hierarchy under its module path, when that path lies
    below [tensorflow_datasets] and outside [testing]. *)
Theorem designated_builder_grouped (datasets : option (list string))
    (m : Sections) (builder : DatasetBuilder) (m2 m3 : string) :
  make_module_to_builder_dict datasets = Ok m →
  (datasets = None
     ∧ tfds_builder "image_label_folder" (DatasetNameKwarg "image_label_folder")
       = Ok builder)
  ∨ (∃ names, datasets = Some names ∧ "image_label_folder" ∈ names
       ∧ tfds_builder "image_label_folder" NoKwargs = Ok builder) →
  split "." (cls_module builder) = ["tensorflow_datasets"; m2; m3] →
  m2 ≠ "testing" → m3 ≠ "testing" →
  builder ∈ section_bucket m m2 m3
  ∧ (datasets = None →
     let listed_names :=
       filter (λ name, name ∉ BUILDER_BLACKLIST) tfds_list_builders in
     ("image_label_folder" ∉ listed_names)
     ∧ ∃ listed,
         mapM (λ name, tfds_builder name NoKwargs) listed_names = Ok listed
         ∧ collect_builders datasets = Ok (listed ++ [builder])).
Proof.
  intros Hm Hcase Hpath Hm2 Hm3.
  destruct (section_bucket_make datasets m m2 m3 Hm) as (bs & Hbs & ->).
  split.
  - apply list_elem_of_filter. split.
    { split; [|done]. unfold in_testing. rewrite Hpath.
      rewrite !elem_of_cons, elem_of_nil. intros [?|[?|[?|[]]]]; congruence. }
    destruct Hcase as [[-> Hextra]|(names & -> & Hin & Hnamed)].
    + unfold collect_builders in Hbs. rewrite Hextra in Hbs.
      destruct (mapM _ _) as [listed|e]; simpl in Hbs; [|done].
      injection Hbs as <-. apply elem_of_app. right. left.
    + destruct names as [|n names]; [by apply elem_of_nil in Hin|].
      by eapply mapM_Ok_elem_of.
  - intros ->. destruct Hcase as [[_ Hextra]|(names & [=] & _)].
    split.
    + intros [Hout _]%list_elem_of_filter. apply Hout. left.
    + unfold collect_builders in *. rewrite Hextra in *.
      destruct (mapM _ _) as [listed|e]; simpl in Hbs; [|done].
      by exists listed.
Qed.

End grouping.

Lemma testing_builders_excluded_witness :
  make_module_to_builder_dict None = Ok Demo.default_sections
  ∧ collect_builders None
    = Ok [Demo.zeta; Demo.alpha; Demo.dummy; Demo.multi_builder Demo.small;
          Demo.mid; Demo.mnist; Demo.image_label_folder]
  ∧ "testing" ∈ split "." (cls_module Demo.dummy)
  ∧ ∀ section d leaf bucket builder,
      Demo.default_sections !! section = Some d →
      d !! leaf = Some bucket → builder ∈ bucket →
      "testing" ∉ split "." (cls_module builder).
Proof.
  assert (make_module_to_builder_dict None = Ok Demo.default_sections) as Hm.
  { vm_compute. reflexivity. }
  split_and!; [exact Hm|vm_compute; reflexivity| |].
  - vm_compute. right. left.
  - apply (testing_builders_excluded None Demo.default_sections Hm).
Defined.

Lemma designated_builder_grouped_witness :
  make_module_to_builder_dict (Some ["mnist"; "image_label_folder"])
  = Ok Demo.image_sections
  ∧ Demo.image_label_folder
    ∈ section_bucket Demo.image_sections "image" "image_folder".
Proof.
  assert (make_module_to_builder_dict (Some ["mnist"; "image_label_folder"])
          = Ok Demo.image_sections) as Hm.
  { vm_compute. reflexivity. }
  split; [exact Hm|].
  apply (designated_builder_grouped _ _ _ "image" "image_folder" Hm).
  - right. exists ["mnist"; "image_label_folder"].
    split_and!; [reflexivity| |vm_compute; reflexivity].
    right. left.
  - vm_compute. reflexivity.
  - discriminate.
  - discriminate.
Defined.

(** In the default enumeration the designated builder is in the
    hierarchy. *)
Lemma designated_builder_in_default_enumeration :
  "image_label_folder" ∈ BUILDER_BLACKLIST
  ∧ make_module_to_builder_dict None = Ok Demo.default_sections
  ∧ section_bucket Demo.default_sections "image" "image_folder"
    = [Demo.image_label_folder].
Proof.
  split_and!; [left|vm_compute; reflexivity..].
Qed.

(** ** The grouping does not depend on the order of the builders *)

Lemma mapM_Ok_perm {A B} (f : A → result B) (l1 l2 : list A) :
  l1 ≡ₚ l2 →
  ∀ ys1, mapM f l1 = Ok ys1 → ∃ ys2, mapM f l2 = Ok ys2 ∧ ys1 ≡ₚ ys2.
Proof.
  induction 1 as [|x l1 l2 _ IH|x y l|l1 l2 l3 _ IH1 _ IH2]; intros ys1; simpl.
  - intros [= <-]. by exists [].
  - destruct (f x) as [b|e]; simpl; [|done].
    destruct (mapM f l1) as [bs|e]; simpl; [|done].
    intros [= <-]. destruct (IH bs eq_refl) as (bs2 & -> & Hperm). simpl.
    exists (b :: bs2). split; [done|by constructor].
  - destruct (f y) as [b|e]; simpl; [|done].
    destruct (f x) as [a|e]; simpl; [|done].
    destruct (mapM f l) as [bs|e]; simpl; [|done].
    intros [= <-]. exists (a :: b :: bs). split; [done|apply Permutation_swap].
  - intros Hys1. destruct (IH1 ys1 Hys1) as (ys2 & Hys2 & Hperm12).
    destruct (IH2 ys2 Hys2) as (ys3 & Hys3 & Hperm23).
    exists ys3. split; [done|by etrans].
Qed.

Lemma keys_perm {A B} (d1 : gmap string A) (d2 : gmap string B) :
  (∀ k, is_Some (d1 !! k) ↔ is_Some (d2 !! k)) →
  map fst (map_to_list d1) ≡ₚ map fst (map_to_list d2).
Proof.
  intros Hkeys.
  assert (∀ C (d : gmap string C) k,
            k ∈ map fst (map_to_list d) ↔ is_Some (d !! k)) as Hin.
  { intros C d k. change (map fst (map_to_list d)) with ((map_to_list d).*1).
    rewrite list_elem_of_fmap. split.
    - intros ([k' v] & -> & Hkv). apply elem_of_map_to_list in Hkv. by eexists.
    - intros [v Hv]. exists (k, v). split; [done|]. by apply elem_of_map_to_list. }
  apply NoDup_Permutation.
  - apply (NoDup_fst_map_to_list d1).
  - apply (NoDup_fst_map_to_list d2).
  - intros k. by rewrite !Hin.
Qed.

Lemma concat_map_perm {A B} (f g : A → list B) (l : list A) :
  (∀ x, f x ≡ₚ g x) → concat (map f l) ≡ₚ concat (map g l).
Proof.
  intros Hfg. induction l as [|x l IH]; simpl; [done|]. by rewrite Hfg, IH.
Qed.

Lemma nest_flatten_perm (d1 d2 : Bucket) :
  (∀ k, is_Some (d1 !! k) ↔ is_Some (d2 !! k)) →
  (∀ k, default [] (d1 !! k) ≡ₚ default [] (d2 !! k)) →
  nest_flatten d1 ≡ₚ nest_flatten d2.
Proof.
  intros Hkeys Hbuckets. unfold nest_flatten.
  rewrite (sorted_of_perm _ _ (keys_perm d1 d2 Hkeys)).
  by apply concat_map_perm.
Qed.

Lemma elem_of_nest_flatten (d : Bucket) (b : DatasetBuilder) :
  b ∈ nest_flatten d → ∃ k, b ∈ default [] (d !! k).
Proof.
  unfold nest_flatten. intros Hin%list_elem_of_In%in_concat.
  destruct Hin as (bucket & Hbucket%in_map_iff & Hb%list_elem_of_In).
  destruct Hbucket as (k & <- & _). by exists k.
Qed.

(** Sorting by a key that tells the elements apart forgets the order
    of the input. *)
Lemma sorted_key_of_perm {A} (f : A → string) (l1 l2 : list A) :
  l1 ≡ₚ l2 →
  (∀ x y, x ∈ l1 → y ∈ l1 → f x = f y → x = y) →
  sorted_key f l1 = sorted_key f l2.
Proof.
  intros Hperm Hinj.
  apply (StronglySorted_unique_strong (λ a b, String.le (f a) (f b)));
    try apply sorted_key_sorted.
  - intros x y Hx Hy Hxy Hyx. rewrite sorted_key_perm in Hx, Hy.
    apply Hinj; [done|by rewrite Hperm|]. by apply (anti_symm String.le).
  - by rewrite !sorted_key_perm.
Qed.

(** Names without repetition tell the builders apart. *)
Lemma names_apart_of_NoDup {A} (f : A → string) (l : list A) :
  NoDup (map f l) → ∀ x y, x ∈ l → y ∈ l → f x = f y → x = y.
Proof.
  induction l as [|a l IH]; simpl.
  - by intros _ x y ?%elem_of_nil.
  - intros [Ha Hl]%NoDup_cons x y [->|Hx]%elem_of_cons [->|Hy]%elem_of_cons Hxy.
    + done.
    + destruct Ha. rewrite Hxy. apply list_elem_of_In, in_map.
      by apply list_elem_of_In.
    + destruct Ha. rewrite <- Hxy. apply list_elem_of_In, in_map.
      by apply list_elem_of_In.
    + by apply IH.
Qed.

Section order.
Context `{Env}.

Lemma place_builder_inv (tree tree' : ModuleTree) (builder : DatasetBuilder) :
  place_builder tree builder = Ok tree' →
  (in_testing builder ∧ tree' = tree)
  ∨ ∃ a b c,
      (∀ x y z, filed_under x y z builder ↔ a = x ∧ b = y ∧ c = z)
      ∧ tree'
        = <[a := <[b := <[c := bucket_at tree a b c ++ [builder]]>
                           (default ∅ (default ∅ (tree !! a) !! b))]>
                   (default ∅ (tree !! a))]> tree.
Proof.
  unfold place_builder. case_bool_decide as Htesting.
  { intros [= <-]. by left. }
  destruct (split "." (cls_module builder)) as [|a [|b [|c [|? ?]]]] eqn:Hpath;
    try done.
  intros [= <-]. right. exists a, b, c. split; [|done].
  intros x y z. unfold filed_under, in_testing. rewrite Hpath. split.
  - by intros [_ [= -> -> ->]].
  - by intros (-> & -> & ->).
Qed.

Lemma place_builder_Ok (tree : ModuleTree) (builder : DatasetBuilder) :
  placeable builder ↔ ∃ tree', place_builder tree builder = Ok tree'.
Proof.
  unfold placeable, place_builder, in_testing. case_bool_decide as Htesting.
  { split; [by eexists|by left]. }
  destruct (split "." (cls_module builder)) as [|a [|b [|c [|? ?]]]];
    (split; [intros [?|(? & ? & ? & ?)]; try done; by eexists
            |intros [? ?]; try done; right; by do 3 eexists]).
Qed.

Lemma for_each_place_builder_Ok (builders : list DatasetBuilder) :
  ∀ tree, Forall placeable builders
          ↔ ∃ tree', for_each place_builder builders tree = Ok tree'.
Proof.
  induction builders as [|b builders IH]; intros tree; simpl.
  - split; [by eexists|constructor].
  - rewrite Forall_cons, (place_builder_Ok tree b). split.
    + intros [[tree1 ->] Hall]. simpl. by apply IH.
    + destruct (place_builder tree b) as [tree1|e]; simpl; [|by intros [? ?]].
      intros Hrest. split; [by eexists|]. by apply (IH tree1).
Qed.

Lemma has_section_place (tree tree' : ModuleTree) (builder : DatasetBuilder)
    (m1 m2 : string) :
  place_builder tree builder = Ok tree' →
  has_section tree' m1 m2
  ↔ has_section tree m1 m2 ∨ ∃ m3, filed_under m1 m2 m3 builder.
Proof.
  intros [[Htesting ->]|(a & b & c & Hfiled & ->)]%place_builder_inv.
  { split; [by left|]. intros [?|[m3 [? _]]]; done. }
  unfold has_section. setoid_rewrite Hfiled.
  destruct (decide (a = m1)) as [->|Hm1].
  - rewrite lookup_insert_eq. simpl.
    destruct (decide (b = m2)) as [->|Hm2].
    + rewrite lookup_insert_eq. split; [|by eauto]. intros _. right. by exists c.
    + rewrite lookup_insert_ne by done. split; [by left|].
      intros [?|(? & ? & ? & ?)]; done.
  - rewrite lookup_insert_ne by done. split; [by left|].
    intros [?|(? & ? & ? & ?)]; done.
Qed.

Lemma has_leaf_place (tree tree' : ModuleTree) (builder : DatasetBuilder)
    (m1 m2 m3 : string) :
  place_builder tree builder = Ok tree' →
  has_leaf tree' m1 m2 m3
  ↔ has_leaf tree m1 m2 m3 ∨ filed_under m1 m2 m3 builder.
Proof.
  intros [[Htesting ->]|(a & b & c & Hfiled & ->)]%place_builder_inv.
  { split; [by left|]. intros [?|[? _]]; done. }
  unfold has_leaf. rewrite Hfiled.
  destruct (decide (a = m1)) as [->|Hm1].
  - rewrite lookup_insert_eq. simpl.
    destruct (decide (b = m2)) as [->|Hm2].
    + rewrite lookup_insert_eq. simpl.
      destruct (decide (c = m3)) as [->|Hm3].
      * rewrite lookup_insert_eq. split; [|by eauto]. intros _. by right.
      * rewrite lookup_insert_ne by done. split; [by left|].
        intros [?|(? & ? & ?)]; done.
    + rewrite lookup_insert_ne by done. split; [by left|].
      intros [?|(? & ? & ?)]; done.
  - rewrite lookup_insert_ne by done. split; [by left|].
    intros [?|(? & ? & ?)]; done.
Qed.

Lemma has_section_for_each (builders : list DatasetBuilder) :
  ∀ (tree tree' : ModuleTree) (m1 m2 : string),
    for_each place_builder builders tree = Ok tree' →
    has_section tree' m1 m2
    ↔ has_section tree m1 m2
      ∨ ∃ b m3, b ∈ builders ∧ filed_under m1 m2 m3 b.
Proof.
  induction builders as [|b builders IH]; intros tree tree' m1 m2; simpl.
  - intros [= <-]. split; [by left|].
    intros [?|(? & ? & []%elem_of_nil & _)]; done.
  - destruct (place_builder tree b) as [tree1|e] eqn:Hplace; simpl; [|done].
    intros Hrest. rewrite (IH _ _ _ _ Hrest), (has_section_place _ _ _ _ _ Hplace).
    split.
    + intros [[?|[m3 ?]]|(b' & m3 & ? & ?)]; [by left|right..].
      * exists b, m3. split; [left|done].
      * exists b', m3. split; [by right|done].
    + intros [?|(b' & m3 & [->|?]%elem_of_cons & ?)].
      * by do 2 left.
      * left. right. by exists m3.
      * right. by exists b', m3.
Qed.

Lemma has_leaf_for_each (builders : list DatasetBuilder) :
  ∀ (tree tree' : ModuleTree) (m1 m2 m3 : string),
    for_each place_builder builders tree = Ok tree' →
    has_leaf tree' m1 m2 m3
    ↔ has_leaf tree m1 m2 m3 ∨ ∃ b, b ∈ builders ∧ filed_under m1 m2 m3 b.
Proof.
  induction builders as [|b builders IH]; intros tree tree' m1 m2 m3; simpl.
  - intros [= <-]. split; [by left|].
    intros [?|(? & []%elem_of_nil & _)]; done.
  - destruct (place_builder tree b) as [tree1|e] eqn:Hplace; simpl; [|done].
    intros Hrest. rewrite (IH _ _ _ _ _ Hrest), (has_leaf_place _ _ _ _ _ _ Hplace).
    split.
    + intros [[?|?]|(b' & ? & ?)]; [by left|right..].
      * exists b. split; [left|done].
      * exists b'. split; [by right|done].
    + intros [?|(b' & [->|?]%elem_of_cons & ?)].
      * by do 2 left.
      * left. by right.
      * right. by exists b'.
Qed.

End order.

Section order_of_builders.
Context `{Env}.

(** Two orders of the same builders give hierarchies with the same
    keys and, under every path, the same builders up to their order. *)
Lemma grouping_of_perm (builders1 builders2 : list DatasetBuilder)
    (tree1 tree2 : ModuleTree) (root : string) :
  builders1 ≡ₚ builders2 →
  for_each place_builder builders1 ∅ = Ok tree1 →
  for_each place_builder builders2 ∅ = Ok tree2 →
  (∀ m2, has_section tree1 root m2 ↔ has_section tree2 root m2)
  ∧ (∀ m2 m3, has_leaf tree1 root m2 m3 ↔ has_leaf tree2 root m2 m3)
  ∧ (∀ m2 m3, bucket_at tree1 root m2 m3 ≡ₚ bucket_at tree2 root m2 m3).
Proof.
  intros Hperm Htree1 Htree2. split_and!.
  - intros m2.
    rewrite (has_section_for_each _ _ _ root m2 Htree1),
      (has_section_for_each _ _ _ root m2 Htree2).
    by setoid_rewrite Hperm.
  - intros m2 m3.
    rewrite (has_leaf_for_each _ _ _ root m2 m3 Htree1),
      (has_leaf_for_each _ _ _ root m2 m3 Htree2).
    by setoid_rewrite Hperm.
  - intros m2 m3.
    rewrite (bucket_at_for_each _ _ _ root m2 m3 Htree1),
      (bucket_at_for_each _ _ _ root m2 m3 Htree2).
    by rewrite Hperm.
Qed.

Lemma section_builders_of_perm (builders1 builders2 : list DatasetBuilder)
    (tree1 tree2 : ModuleTree) (section : string) :
  builders1 ≡ₚ builders2 →
  (∀ b b', b ∈ builders1 → b' ∈ builders1 → name b = name b' → b = b') →
  for_each place_builder builders1 ∅ = Ok tree1 →
  for_each place_builder builders2 ∅ = Ok tree2 →
  section_builders (default ∅ (tree1 !! "tensorflow_datasets")) section
  = section_builders (default ∅ (tree2 !! "tensorflow_datasets")) section.
Proof.
  intros Hperm Hnames Htree1 Htree2.
  destruct (grouping_of_perm _ _ _ _ "tensorflow_datasets" Hperm Htree1 Htree2)
    as (_ & Hleaves & Hbuckets).
  unfold section_builders. apply sorted_key_of_perm.
  - apply nest_flatten_perm; [apply Hleaves|apply Hbuckets].
  - assert (∀ b, b ∈ nest_flatten
                       (default ∅ (default ∅ (tree1 !! "tensorflow_datasets")
                                     !! section)) → b ∈ builders1) as Hsub.
    { intros b [leaf Hb]%elem_of_nest_flatten.
      change (b ∈ bucket_at tree1 "tensorflow_datasets" section leaf) in Hb.
      rewrite (bucket_at_for_each _ _ _ _ _ _ Htree1) in Hb.
      apply elem_of_app in Hb as [Hb|Hb%list_elem_of_filter]; [|tauto].
      unfold bucket_at in Hb. rewrite lookup_empty in Hb. simpl in Hb.
      rewrite lookup_empty in Hb. simpl in Hb. rewrite lookup_empty in Hb.
      by apply elem_of_nil in Hb. }
    intros b b' Hb Hb'. apply Hnames; by apply Hsub.
Qed.

Lemma for_each_document_section_ext (m1 m2 : Sections) (sections : list string) :
  (∀ section, section_builders m1 section = section_builders m2 section) →
  ∀ acc, for_each (document_section m1) sections acc
         = for_each (document_section m2) sections acc.
Proof.
  intros Hsame.
  assert (∀ acc section,
            document_section m1 acc section = document_section m2 acc section)
    as Hstep.
  { intros [tocs docs] section. unfold document_section. by rewrite Hsame. }
  induction sections as [|section sections IH]; intros acc; [done|].
  cbn [for_each]. rewrite Hstep.
  destruct (document_section m2 acc section) as [acc'|e]; simpl; [apply IH|done].
Qed.

(** The document does not depend on the order in which the datasets
    are named, provided the builders can be grouped and their names tell
    them apart. *)
Lemma docs_order_independent (names1 names2 : list string)
    (builders1 : list DatasetBuilder) :
  names1 ≡ₚ names2 →
  collect_builders (Some names1) = Ok builders1 →
  Forall placeable builders1 →
  (∀ b b', b ∈ builders1 → b' ∈ builders1 → name b = name b' → b = b') →
  dataset_docs_str (Some names2) = dataset_docs_str (Some names1).
Proof.
  intros Hperm Hcollect Hplaceable Hnames.
  destruct names1 as [|n1 names1].
  { by apply Permutation_nil_l in Hperm as ->. }
  destruct names2 as [|n2 names2].
  { by apply Permutation_nil_r in Hperm. }
  unfold dataset_docs_str, make_module_to_builder_dict.
  rewrite Hcollect. simpl in Hcollect.
  destruct (mapM_Ok_perm _ _ _ Hperm _ Hcollect) as (builders2 & Hcollect2 & Hbs).
  unfold collect_builders. rewrite Hcollect2. simpl.
  destruct (proj1 (for_each_place_builder_Ok builders1 ∅) Hplaceable)
    as [tree1 Htree1].
  rewrite Hbs in Hplaceable.
  destruct (proj1 (for_each_place_builder_Ok builders2 ∅) Hplaceable)
    as [tree2 Htree2].
  rewrite Htree1, Htree2. simpl.
  destruct (grouping_of_perm _ _ _ _ "tensorflow_datasets" Hbs Htree1 Htree2)
    as (Hsections & _ & _).
  rewrite (sorted_of_perm _ _ (keys_perm _ _ Hsections)).
  rewrite (for_each_document_section_ext
             (default ∅ (tree2 !! "tensorflow_datasets"))
             (default ∅ (tree1 !! "tensorflow_datasets"))); [done|].
  intros section. symmetry.
  by apply (section_builders_of_perm builders1 builders2).
Qed.

End order_of_builders.

(** ** The document assembly *)

Lemma mapM_Ok_exists {A B} (f : A → result B) (l : list A) :
  (∀ x, x ∈ l → ∃ y, f x = Ok y) → ∃ ys, mapM f l = Ok ys.
Proof.
  induction l as [|x l IH]; intros Hf; simpl; [by eexists|].
  destruct (Hf x) as [y Hy]; [left|]. rewrite Hy. simpl.
  destruct IH as [ys Hys]; [intros x' Hx'; apply Hf; by right|].
  rewrite Hys. simpl. by eexists.
Qed.

Section assembly.
Context `{Env}.

(** The loop over the sections, from any accumulated state. *)
Lemma for_each_document_section (m : Sections) (sections : list string)
    (docs : list (list string)) :
  Forall2 (λ section ds,
             mapM document_single_builder (section_builders m section) = Ok ds)
          sections docs →
  ∀ section_tocs section_docs,
    for_each (document_section m) sections (section_tocs, section_docs)
    = Ok (section_tocs
            ++ map (λ section,
                      create_section_toc section (section_builders m section))
                   sections,
          section_docs
            ++ zip_with (λ section ds, SECTION_DATASETS section (join nl ds))
                        sections docs).
Proof.
  induction 1 as [|section ds sections docs Hds _ IH];
    intros section_tocs section_docs; simpl.
  - by rewrite !app_nil_r.
  - rewrite Hds. simpl. rewrite IH, <- !app_assoc. done.
Qed.

Lemma section_docs_exist (m : Sections) (sections : list string) :
  (∀ section, section ∈ sections →
     ∀ builder, builder ∈ section_builders m section →
       ∃ doc, document_single_builder builder = Ok doc) →
  ∃ docs,
    Forall2 (λ section ds,
               mapM document_single_builder (section_builders m section) = Ok ds)
            sections docs.
Proof.
  induction sections as [|section sections IH]; intros Hdocs; [by exists []|].
  destruct IH as [docs Hall].
  { intros s Hs. apply Hdocs. by right. }
  destruct (mapM_Ok_exists document_single_builder
              (section_builders m section)) as [ds Hds].
  { apply Hdocs. left. }
  exists (ds :: docs). by constructor.
Qed.

Lemma make_module_to_builder_dict_inv (datasets : option (list string))
    (m : Sections) :
  make_module_to_builder_dict datasets = Ok m →
  ∃ builders,
    collect_builders datasets = Ok builders ∧ Forall placeable builders.
Proof.
  unfold make_module_to_builder_dict.
  destruct (collect_builders datasets) as [builders|e]; simpl; [|done].
  destruct (for_each place_builder builders ∅) as [tree|e] eqn:Htree; simpl; [|done].
  intros _. exists builders. split; [done|].
  apply (for_each_place_builder_Ok builders ∅). by eexists.
Qed.

(** The grouping returns whenever the names resolve and every module
    path is under [testing] or has three segments. *)
Lemma make_module_to_builder_dict_Ok (datasets : option (list string))
    (builders : list DatasetBuilder) :
  collect_builders datasets = Ok builders →
  Forall placeable builders →
  ∃ m, make_module_to_builder_dict datasets = Ok m.
Proof.
  intros Hcollect Hplaceable. unfold make_module_to_builder_dict.
  rewrite Hcollect. simpl.
  destruct (proj1 (for_each_place_builder_Ok builders ∅) Hplaceable) as [tree ->].
  simpl. by eexists.
Qed.

(** C5.  When the builders are grouped and every builder of the
    hierarchy can be documented, the document is assembled from the
    sections in lexicographic order of their names, each with its
    builders in lexicographic order of their names: the table of contents
    and the bodies walk the sorted section names, and the builders of a
    section are those of its buckets, sorted by name.  The order in which
    the datasets were named does not show: naming them in another order
    gives the same document, when their names tell the builders apart. *)
Theorem document_sections_sorted (datasets : option (list string)) (m : Sections) :
  make_module_to_builder_dict datasets = Ok m →
  (∀ section, section ∈ sorted (map fst (map_to_list m)) →
     ∀ builder, builder ∈ section_builders m section →
       ∃ doc, document_single_builder builder = Ok doc) →
  let sections := sorted (map fst (map_to_list m)) in
  StronglySorted String.le sections
  ∧ sections ≡ₚ map fst (map_to_list m)
  ∧ (∀ section,
       StronglySorted (λ a b, String.le (name a) (name b))
         (section_builders m section)
       ∧ section_builders m section
         ≡ₚ nest_flatten (default ∅ (m !! section)))
  ∧ (∃ docs,
      Forall2 (λ section ds,
                 mapM document_single_builder (section_builders m section)
                 = Ok ds)
              sections docs
      ∧ dataset_docs_str datasets
        = Ok (DOC
                (join nl
                   (map (λ section,
                           create_section_toc section
                             (section_builders m section))
                        sections))
                (join nl
                   (zip_with
                      (λ section ds, SECTION_DATASETS section (join nl ds))
                      sections docs))))
  ∧ ∀ names names' builders,
      datasets = Some names →
      names ≡ₚ names' →
      collect_builders datasets = Ok builders →
      (∀ b b', b ∈ builders → b' ∈ builders → name b = name b' → b = b') →
      dataset_docs_str (Some names') = dataset_docs_str datasets.
Proof.
  intros Hm Hdocs sections. split_and!.
  - apply sorted_sorted.
  - apply sorted_perm.
  - intros section. split; [apply sorted_key_sorted|apply sorted_key_perm].
  - destruct (section_docs_exist m sections Hdocs) as [docs Hall].
    exists docs. split; [done|].
    unfold dataset_docs_str. rewrite Hm. simpl.
    fold sections. by rewrite (for_each_document_section m sections docs Hall).
  - intros names names' builders -> Hperm Hcollect Hnames.
    destruct (make_module_to_builder_dict_inv _ _ Hm) as (bs & Hbs & Hplaceable).
    rewrite Hcollect in Hbs. injection Hbs as <-.
    by apply (docs_order_independent names names' builders).
Qed.

End assembly.

Lemma document_sections_sorted_witness :
  make_module_to_builder_dict (Some ["zeta"; "alpha"; "mid"])
  = Ok Demo.text_sections
  ∧ sorted (map fst (map_to_list Demo.text_sections)) = ["text"]
  ∧ section_builders Demo.text_sections "text"
    = [Demo.alpha; Demo.mid; Demo.zeta]
  ∧ StronglySorted (λ a b, String.le (name a) (name b))
      (section_builders Demo.text_sections "text")
  ∧ (∃ body,
       dataset_docs_str (Some ["zeta"; "alpha"; "mid"])
       = Ok (DOC (join nl
                    [ "* [`text`](#text)";
                      "  * [`" +:+ dq +:+ "alpha" +:+ dq +:+ "`](#alpha)";
                      "  * [`" +:+ dq +:+ "mid" +:+ dq +:+ "`](#mid)";
                      "  * [`" +:+ dq +:+ "zeta" +:+ dq +:+ "`](#zeta)" ])
                 body))
  ∧ dataset_docs_str (Some ["alpha"; "mid"; "zeta"])
    = dataset_docs_str (Some ["zeta"; "alpha"; "mid"]).
Proof.
  assert (make_module_to_builder_dict (Some ["zeta"; "alpha"; "mid"])
          = Ok Demo.text_sections) as Hm.
  { vm_compute. reflexivity. }
  assert (sorted (map fst (map_to_list Demo.text_sections)) = ["text"])
    as Hsections.
  { vm_compute. reflexivity. }
  assert (section_builders Demo.text_sections "text"
          = [Demo.alpha; Demo.mid; Demo.zeta]) as Hbuilders.
  { vm_compute. reflexivity. }
  destruct (document_sections_sorted _ _ Hm)
    as (_ & _ & Hsorted & (docs & _ & Hdoc) & Horder).
  { intros section Hsection builder Hin.
    rewrite Hsections in Hsection. apply list_elem_of_singleton in Hsection as ->.
    rewrite Hbuilders in Hin.
    assert (builder_configs builder = []) as Hplain.
    { apply elem_of_cons in Hin as [->|Hin]; [reflexivity|].
      apply elem_of_cons in Hin as [->|Hin]; [reflexivity|].
      apply list_elem_of_singleton in Hin as ->. reflexivity. }
    destruct (document_plain_builder builder Hplain) as (f & _ & Hf & _).
    exists (DATASET_ENTRY f). exact Hf. }
  split_and!; [exact Hm|exact Hsections|exact Hbuilders|apply Hsorted| |].
  - eexists. rewrite Hdoc, Hsections. cbn [map]. rewrite Hbuilders.
    reflexivity.
  - apply (Horder ["zeta"; "alpha"; "mid"] ["alpha"; "mid"; "zeta"]
             [Demo.zeta; Demo.alpha; Demo.mid]).
    + reflexivity.
    + apply (Permutation_cons_append ["alpha"; "mid"] "zeta").
    + vm_compute. reflexivity.
    + apply names_apart_of_NoDup. apply (bool_decide_unpack _).
      vm_compute. exact I.
Defined.

(** ** The entry of a builder with configurations *)

Section configs_entry.
Context `{Env}.

(** After the loop over the configurations, [builder] and [info] are
    those of the round of the last configuration. *)
Lemma for_each_document_config_last (init : list BuilderConfig) :
  ∀ (c : BuilderConfig) (st st' : ConfigLoop),
    for_each document_config (init ++ [c]) st = Ok st' →
    ∃ prev,
      tfds_builder (name prev) (ConfigKwarg c) = Ok (loop_builder st')
      ∧ loop_info st' = Some (info (loop_builder st')).
Proof.
  induction init as [|a init IH]; intros c st st'; simpl.
  - unfold document_config at 1.
    destruct (tfds_builder _ _) as [b|e] eqn:Hb; simpl; [|done].
    intros [= <-]. by exists (loop_builder st).
  - destruct (document_config st a) as [st1|e]; simpl; [|done].
    apply IH.
Qed.

(** Whenever the entry of a builder with configurations is rendered,
    its dataset-level fields are those of the info record resolved for
    the last configuration. *)
Lemma configs_entry_from_last_config (builder : DatasetBuilder)
    (f : ConfigsEntryFields) :
  document_single_builder_args builder = Ok (ConfigsEntry f) →
  ∃ init c prev resolved,
    BUILDER_CONFIGS builder = init ++ [c]
    ∧ tfds_builder (name prev) (ConfigKwarg c) = Ok resolved
    ∧ ce_url f = url_from_info (info resolved)
    ∧ ce_urls f = format_urls (urls (info resolved))
    ∧ ce_citation f = make_citation (citation (info resolved))
    ∧ ce_statistics_information f = make_statistics_information (info resolved)
    ∧ ce_supervised_keys f
      = str_supervised_keys (supervised_keys (info resolved)).
Proof.
  unfold document_single_builder_args, builder_configs.
  destruct (BUILDER_CONFIGS builder) as [|c0 rest] eqn:Hconfigs; [done|].
  destruct (exists_last (l:=c0 :: rest)) as (init & c & Hlast); [done|].
  rewrite Hlast.
  destruct (for_each document_config (init ++ [c]) _) as [st|e] eqn:Hloop;
    simpl; [|done].
  destruct (for_each_document_config_last init c _ st Hloop) as (prev & Hprev & Hinfo).
  destruct (mapM _ _) as [bullets|e]; simpl; [|done].
  rewrite Hinfo. intros [= <-]. simpl.
  by exists init, c, prev, (loop_builder st).
Qed.

End configs_entry.

(** C1 at a builder with the configurations [small] and [large], in
    this order.  The entry is rendered, and its URL, URL list, citation,
    statistics and supervised keys are those of the info record of
    [large], the last configuration; each differs from what the info
    record of [small], the first configuration, would give. *)
Theorem configs_entry_uses_last_config :
  BUILDER_CONFIGS (Demo.multi_builder Demo.small) = [Demo.small; Demo.large]
  ∧ tfds_builder "multi" (ConfigKwarg Demo.small)
    = Ok (Demo.multi_builder Demo.small)
  ∧ info (Demo.multi_builder Demo.small) = Demo.small_info
  ∧ info (Demo.multi_builder Demo.large) = Demo.large_info
  ∧ ∃ f,
      document_single_builder_args (Demo.multi_builder Demo.small)
      = Ok (ConfigsEntry f)
      ∧ ce_url f = url_from_info Demo.large_info
      ∧ ce_url f ≠ url_from_info Demo.small_info
      ∧ ce_citation f = make_citation (citation Demo.large_info)
      ∧ ce_citation f ≠ make_citation (citation Demo.small_info)
      ∧ ce_statistics_information f = make_statistics_information Demo.large_info
      ∧ ce_statistics_information f ≠ make_statistics_information Demo.small_info
      ∧ ce_supervised_keys f
        = str_supervised_keys (supervised_keys Demo.large_info)
      ∧ ce_supervised_keys f
        ≠ str_supervised_keys (supervised_keys Demo.small_info).
Proof.
  split_and!; [reflexivity..|].
  eexists. split; [vm_compute; reflexivity|].
  split_and!; vm_compute; (reflexivity || discriminate).
Qed.

(** ** The JSON-LD record *)

Section json_ld.
Context `{Env}.

Lemma schema_org_first_url (builder : DatasetBuilder) (url : string)
    (rest : list string) :
  urls (info builder) = url :: rest →
  schema_org builder
  = Ok (JSON_LD_STR (name builder) (description (info builder))
          (replace "'" dq url) (size_str (size_in_bytes (info builder)))).
Proof. unfold schema_org. by intros ->. Qed.

Lemma schema_org_no_url (builder : DatasetBuilder) :
  urls (info builder) = [] → schema_org builder = Raise IndexError.
Proof. unfold schema_org. by intros ->. Qed.

End json_ld.

(** C4 at the builder [mnist] with the URL [http://x].  The record
    written has the lines of [name], [description] and [url], the URL
    bare, but the key of the size is written with the colon inside the
    quotes, so the text has no key [size]; and for a builder whose info
    record lists no URL nothing is written, the script raising
    [IndexError]. *)
Theorem schema_org_size_key :
  ∃ out,
    schema_org Demo.mnist = Ok out
    ∧ out
      = unlines
          [ "{";
            "  " +:+ dq +:+ "@context" +:+ dq +:+ ": " +:+ dq
              +:+ "https://schema.org/" +:+ dq +:+ ",";
            "  " +:+ dq +:+ "@type" +:+ dq +:+ ": " +:+ dq +:+ "Dataset"
              +:+ dq +:+ ",";
            "  " +:+ dq +:+ "name" +:+ dq +:+ ": " +:+ dq +:+ "mnist" +:+ dq +:+ ",";
            "  " +:+ dq +:+ "description" +:+ dq +:+ ": " +:+ dq +:+ "D"
              +:+ dq +:+ ",";
            "  " +:+ dq +:+ "url" +:+ dq +:+ ": http://x,";
            "  " +:+ dq +:+ "size:" +:+ dq +:+ " 100 bytes,";
            "}" ]
    ∧ contains (dq +:+ "size" +:+ dq) out = false
    ∧ contains (dq +:+ "size:" +:+ dq) out = true
    ∧ contains (dq +:+ "name" +:+ dq +:+ ": ") out = true
    ∧ contains (dq +:+ "description" +:+ dq +:+ ": ") out = true
    ∧ contains (dq +:+ "url" +:+ dq +:+ ": ") out = true
    ∧ urls (info Demo.no_url_builder) = []
    ∧ schema_org Demo.no_url_builder = Raise IndexError
    ∧ url_from_info (info Demo.no_url_builder) = "<no known url>".
Proof.
  eexists. split; [vm_compute; reflexivity|].
  split_and!; vm_compute; reflexivity.
Qed.

(** * Further properties of the script *)

(** ** What the hierarchy holds *)

Lemma for_each_app {S A} (body : S → A → result S) (l1 l2 : list A) (st : S) :
  for_each body (l1 ++ l2) st
  = for_each body l1 st ≫= for_each body l2.
Proof.
  revert st. induction l1 as [|x l1 IH]; intros st; simpl; [done|].
  destruct (body st x) as [st'|e]; simpl; [apply IH|done].
Qed.

Lemma bucket_at_empty (m1 m2 m3 : string) : bucket_at ∅ m1 m2 m3 = [].
Proof.
  unfold bucket_at. rewrite lookup_empty. simpl.
  rewrite lookup_empty. simpl. by rewrite lookup_empty.
Qed.

Lemma has_section_empty (m1 m2 : string) : ¬ has_section ∅ m1 m2.
Proof.
  unfold has_section. rewrite lookup_empty. simpl. rewrite lookup_empty.
  by intros [? ?].
Qed.

Lemma has_leaf_empty (m1 m2 m3 : string) : ¬ has_leaf ∅ m1 m2 m3.
Proof.
  unfold has_leaf. rewrite lookup_empty. simpl. rewrite lookup_empty. simpl.
  rewrite lookup_empty. by intros [? ?].
Qed.

Lemma in_section_filed_under (section : string) (builder : DatasetBuilder) :
  in_section section builder
  ↔ ∃ leaf, filed_under "tensorflow_datasets" section leaf builder.
Proof.
  unfold in_section, filed_under. split.
  - intros (Hout & Hlen & Htake).
    destruct (split "." (cls_module builder)) as [|a [|b [|c [|? ?]]]];
      try done.
    injection Htake as -> ->. by exists c.
  - intros (leaf & Hout & ->). done.
Qed.

Section hierarchy.
Context `{Env}.

Lemma make_module_to_builder_dict_tree (datasets : option (list string))
    (m : Sections) :
  make_module_to_builder_dict datasets = Ok m →
  ∃ builders tree,
    collect_builders datasets = Ok builders
    ∧ for_each place_builder builders ∅ = Ok tree
    ∧ m = default ∅ (tree !! "tensorflow_datasets").
Proof.
  unfold make_module_to_builder_dict.
  destruct (collect_builders datasets) as [builders|e]; simpl; [|done].
  destruct (for_each place_builder builders ∅) as [tree|e] eqn:Htree; simpl; [|done].
  intros [= <-]. by exists builders, tree.
Qed.

Lemma hierarchy_bucket (builders : list DatasetBuilder) (tree : ModuleTree)
    (section leaf : string) :
  for_each place_builder builders ∅ = Ok tree →
  section_bucket (default ∅ (tree !! "tensorflow_datasets")) section leaf
  = filter (filed_under "tensorflow_datasets" section leaf) builders.
Proof.
  intros Htree.
  change (bucket_at tree "tensorflow_datasets" section leaf
          = filter (filed_under "tensorflow_datasets" section leaf) builders).
  by rewrite (bucket_at_for_each _ _ _ _ _ _ Htree), bucket_at_empty.
Qed.

Lemma hierarchy_leaf_iff (builders : list DatasetBuilder) (tree : ModuleTree)
    (section leaf : string) :
  for_each place_builder builders ∅ = Ok tree →
  is_Some (default ∅ (default ∅ (tree !! "tensorflow_datasets") !! section)
             !! leaf)
  ↔ ∃ b, b ∈ builders ∧ filed_under "tensorflow_datasets" section leaf b.
Proof.
  intros Htree.
  pose proof (has_leaf_for_each _ _ _ "tensorflow_datasets" section leaf Htree)
    as Hleaf.
  unfold has_leaf in Hleaf at 1. rewrite Hleaf. split; [|by right].
  intros [[]%has_leaf_empty|?]. done.
Qed.

Lemma hierarchy_section_iff (builders : list DatasetBuilder) (tree : ModuleTree)
    (section : string) :
  for_each place_builder builders ∅ = Ok tree →
  is_Some (default ∅ (tree !! "tensorflow_datasets") !! section)
  ↔ ∃ b, b ∈ builders ∧ in_section section b.
Proof.
  intros Htree.
  pose proof (has_section_for_each _ _ _ "tensorflow_datasets" section Htree)
    as Hsection.
  unfold has_section in Hsection at 1. rewrite Hsection.
  setoid_rewrite in_section_filed_under. split.
  - intros [[]%has_section_empty|(b & leaf & ? & ?)]. exists b. eauto.
  - intros (b & ? & leaf & ?). right. by exists b, leaf.
Qed.

(** Every bucket of the returned hierarchy lists, in the order in which
    they were collected, exactly the collected builders outside
    [testing] whose module path is [tensorflow_datasets], the section
    and the leaf of the bucket; a builder with another root, or under
    another path, is nowhere in the hierarchy. *)
Theorem buckets_in_encounter_order (datasets : option (list string))
    (m : Sections) :
  make_module_to_builder_dict datasets = Ok m →
  ∃ builders,
    collect_builders datasets = Ok builders
    ∧ (∀ section leaf,
         section_bucket m section leaf
         = filter (filed_under "tensorflow_datasets" section leaf) builders)
    ∧ (∀ section d leaf bucket builder,
         m !! section = Some d → d !! leaf = Some bucket → builder ∈ bucket →
         builder ∈ builders
         ∧ split "." (cls_module builder)
           = ["tensorflow_datasets"; section; leaf]).
Proof.
  intros Hm.
  destruct (make_module_to_builder_dict_tree _ _ Hm)
    as (builders & tree & Hcollect & Htree & ->).
  exists builders. split; [done|].
  pose proof (λ section leaf, hierarchy_bucket _ _ section leaf Htree)
    as Hbuckets.
  split; [done|].
  intros section d leaf bucket builder Hsection Hleaf Hin.
  rewrite <- (section_bucket_lookup _ _ _ _ _ Hsection Hleaf), Hbuckets in Hin.
  apply list_elem_of_filter in Hin as [[_ Hpath] Hin]. done.
Qed.

(** A section is a key of the returned hierarchy exactly when a
    collected builder is filed under it, and a leaf is a key of a section
    exactly when a collected builder is filed under that leaf; so no
    section is without a leaf and no bucket is empty. *)
Theorem sections_are_inhabited (datasets : option (list string))
    (m : Sections) (builders : list DatasetBuilder) :
  make_module_to_builder_dict datasets = Ok m →
  collect_builders datasets = Ok builders →
  (∀ section,
     is_Some (m !! section)
     ↔ ∃ b, b ∈ builders ∧ in_section section b)
  ∧ (∀ section leaf,
       is_Some (default ∅ (m !! section) !! leaf)
       ↔ ∃ b, b ∈ builders
              ∧ filed_under "tensorflow_datasets" section leaf b)
  ∧ (∀ section d, m !! section = Some d → d ≠ ∅)
  ∧ (∀ section d leaf bucket,
       m !! section = Some d → d !! leaf = Some bucket → bucket ≠ []).
Proof.
  intros Hm Hcollect.
  destruct (make_module_to_builder_dict_tree _ _ Hm)
    as (bs & tree & Hbs & Htree & ->).
  rewrite Hcollect in Hbs. injection Hbs as <-.
  pose proof (λ section leaf, hierarchy_leaf_iff _ _ section leaf Htree)
    as Hleaves.
  pose proof (λ section, hierarchy_section_iff _ _ section Htree) as Hsections.
  split_and!; [done..| |].
  - intros section d Hsection ->.
    destruct (proj1 (Hsections section)) as (b & Hb & Hin); [by eexists|].
    apply in_section_filed_under in Hin as [leaf Hfiled].
    destruct (proj2 (Hleaves section leaf)) as [bucket Hbucket]; [by exists b|].
    rewrite Hsection in Hbucket. simpl in Hbucket.
    by rewrite lookup_empty in Hbucket.
  - intros section d leaf bucket Hsection Hleaf ->.
    destruct (proj1 (Hleaves section leaf)) as (b & Hb & Hfiled).
    { rewrite Hsection. simpl. by eexists. }
    pose proof (bucket_at_for_each _ _ _ "tensorflow_datasets" section leaf Htree)
      as Hbucket.
    rewrite bucket_at_empty in Hbucket. unfold bucket_at in Hbucket.
    rewrite Hsection in Hbucket. simpl in Hbucket.
    rewrite Hleaf in Hbucket. simpl in Hbucket.
    assert (b ∈ filter (filed_under "tensorflow_datasets" section leaf) builders)
      as Hin by by apply list_elem_of_filter.
    rewrite <- Hbucket in Hin. by apply elem_of_nil in Hin.
Qed.

(** The grouping returns exactly when every collected builder is under
    [testing] or has a module path of three segments.  Otherwise the
    first builder it cannot file decides the exception: with fewer than
    three segments the loop reaches a dictionary and the [append] raises
    [AttributeError]; with more than three it indexes the list by a
    string and raises [TypeError]. *)
Theorem grouping_returns_iff (datasets : option (list string))
    (builders : list DatasetBuilder) :
  collect_builders datasets = Ok builders →
  ((∃ m, make_module_to_builder_dict datasets = Ok m)
   ↔ Forall placeable builders)
  ∧ (∀ pre b post,
       builders = pre ++ b :: post →
       Forall placeable pre →
       ¬ in_testing b →
       (length (split "." (cls_module b)) < 3 →
        make_module_to_builder_dict datasets = Raise AttributeError)
       ∧ (3 < length (split "." (cls_module b)) →
          make_module_to_builder_dict datasets = Raise TypeError)).
Proof.
  intros Hcollect. unfold make_module_to_builder_dict. rewrite Hcollect. simpl.
  split.
  - rewrite (for_each_place_builder_Ok builders ∅). split.
    + intros [m Hm].
      destruct (for_each place_builder builders ∅) as [tree|e]; [by eexists|done].
    + intros [tree ->]. simpl. by eexists.
  - intros pre b post -> Hpre Hout.
    destruct (proj1 (for_each_place_builder_Ok pre ∅) Hpre) as [tree Htree].
    rewrite for_each_app, Htree. simpl.
    unfold place_builder. rewrite bool_decide_false by done.
    destruct (split "." (cls_module b)) as [|m1 [|m2 [|m3 [|m4 ?]]]]; simpl;
      split; intros ?; (done || lia).
Qed.

End hierarchy.

Lemma buckets_in_encounter_order_witness :
  ∃ builders,
    collect_builders None = Ok builders
    ∧ section_bucket Demo.default_sections "text" "multi"
      = filter (filed_under "tensorflow_datasets" "text" "multi") builders.
Proof.
  assert (make_module_to_builder_dict None = Ok Demo.default_sections) as Hm.
  { vm_compute. reflexivity. }
  destruct (buckets_in_encounter_order None _ Hm) as (builders & Hcollect & Hbuckets & _).
  exists builders. split; [exact Hcollect|]. apply Hbuckets.
Defined.

Lemma sections_are_inhabited_witness :
  (is_Some (Demo.default_sections !! "text")
   ↔ ∃ b,
       b ∈ [Demo.zeta; Demo.alpha; Demo.dummy; Demo.multi_builder Demo.small;
            Demo.mid; Demo.mnist; Demo.image_label_folder]
       ∧ in_section "text" b)
  ∧ ∀ section d, Demo.default_sections !! section = Some d → d ≠ ∅.
Proof.
  assert (make_module_to_builder_dict None = Ok Demo.default_sections) as Hm.
  { vm_compute. reflexivity. }
  assert (collect_builders None
          = Ok [Demo.zeta; Demo.alpha; Demo.dummy; Demo.multi_builder Demo.small;
                Demo.mid; Demo.mnist; Demo.image_label_folder]) as Hcollect.
  { vm_compute. reflexivity. }
  destruct (sections_are_inhabited None _ _ Hm Hcollect)
    as (Hsections & _ & Hinhabited & _).
  split; [apply Hsections|apply Hinhabited].
Defined.

Lemma grouping_returns_iff_witness :
  @make_module_to_builder_dict Stray.env (Some ["mnist"; "deep_testing"; "flat"; "deep"])
    = Raise AttributeError
  ∧ @make_module_to_builder_dict Stray.env (Some ["mnist"; "deep"; "flat"])
    = Raise TypeError.
Proof.
  split.
  - destruct (@grouping_returns_iff Stray.env
                (Some ["mnist"; "deep_testing"; "flat"; "deep"])
                [Demo.mnist; Stray.deep_testing; Stray.flat; Stray.deep])
      as [_ Hfirst]; [vm_compute; reflexivity|].
    apply (Hfirst [Demo.mnist; Stray.deep_testing] Stray.flat [Stray.deep]).
    + reflexivity.
    + apply Forall_cons. split.
      { right. by exists "tensorflow_datasets", "image", "mnist". }
      apply Forall_cons. split; [|apply Forall_nil_2].
      left. apply (bool_decide_unpack _). vm_compute. exact I.
    + apply (bool_decide_unpack _). vm_compute. exact I.
    + vm_compute. lia.
  - destruct (@grouping_returns_iff Stray.env
                (Some ["mnist"; "deep"; "flat"])
                [Demo.mnist; Stray.deep; Stray.flat])
      as [_ Hfirst]; [vm_compute; reflexivity|].
    apply (Hfirst [Demo.mnist] Stray.deep [Stray.flat]).
    + reflexivity.
    + apply Forall_cons. split; [|apply Forall_nil_2].
      right. by exists "tensorflow_datasets", "image", "mnist".
    + apply (bool_decide_unpack _). vm_compute. exact I.
    + vm_compute. lia.
Defined.

(** ** What a section of the document lists *)

Lemma filter_disjoint_app {A} (P Q : A → Prop)
    `{∀ x, Decision (P x), ∀ x, Decision (Q x)} (l : list A) :
  (∀ x, P x → Q x → False) →
  filter P l ++ filter Q l ≡ₚ filter (λ x, P x ∨ Q x) l.
Proof.
  intros Hdisjoint. induction l as [|x l IH]; [done|].
  rewrite !filter_cons.
  destruct (decide (P x)) as [HP|HP], (decide (Q x)) as [HQ|HQ].
  - destruct (Hdisjoint x HP HQ).
  - rewrite decide_True by by left. simpl. by rewrite IH.
  - rewrite decide_True by by right.
    rewrite <- Permutation_middle. by rewrite IH.
  - rewrite decide_False by tauto. exact IH.
Qed.

Lemma filter_iff_elem {A} (P Q : A → Prop)
    `{∀ x, Decision (P x), ∀ x, Decision (Q x)} (l : list A) :
  (∀ x, x ∈ l → P x ↔ Q x) → filter P l = filter Q l.
Proof.
  induction l as [|x l IH]; intros Hiff; [done|].
  rewrite !filter_cons.
  rewrite IH by (intros y Hy; apply Hiff; by right).
  destruct (decide (P x)) as [HP|HP].
  - rewrite decide_True; [done|]. apply Hiff; [left|done].
  - rewrite decide_False; [done|]. intros HQ. apply HP, Hiff; [left|done].
Qed.

Lemma filter_nothing {A} (P : A → Prop) `{∀ x, Decision (P x)} (l : list A) :
  (∀ x, ¬ P x) → filter P l = [].
Proof.
  intros Hnone. induction l as [|x l IH]; [done|].
  by rewrite filter_cons, decide_False.
Qed.

(** The buckets of distinct keys, taken together, hold what any of the
    keys selects: nothing is lost and nothing comes twice. *)
Lemma concat_filter_keys {A K} (P : K → A → Prop)
    `{∀ k a, Decision (P k a)} (keys : list K) (l : list A) :
  NoDup keys →
  (∀ k k' a, P k a → P k' a → k = k') →
  concat (map (λ k, filter (P k) l) keys)
  ≡ₚ filter (λ a, Exists (λ k, P k a) keys) l.
Proof.
  intros Hkeys Hone. induction Hkeys as [|k keys Hk _ IH]; simpl.
  - rewrite filter_nothing; [done|]. intros a Hex. inversion Hex.
  - rewrite IH, (filter_disjoint_app (P k)).
    + erewrite filter_iff_elem; [done|]. intros a _. by rewrite Exists_cons.
    + intros a HPk (k' & Hk' & HPk')%Exists_exists.
      by rewrite (Hone k k' a) in Hk.
Qed.

Lemma elem_of_keys {A} (d : gmap string A) (k : string) :
  k ∈ map fst (map_to_list d) ↔ is_Some (d !! k).
Proof.
  change (map fst (map_to_list d)) with ((map_to_list d).*1).
  rewrite list_elem_of_fmap. split.
  - intros ([k' v] & -> & Hkv). apply elem_of_map_to_list in Hkv. by eexists.
  - intros [v Hv]. exists (k, v). split; [done|]. by apply elem_of_map_to_list.
Qed.

Lemma mapM_Raise_first {A B} (f : A → result B) (pre : list A) (x : A)
    (post : list A) (e : exn) :
  Forall (λ y, ∃ b, f y = Ok b) pre →
  f x = Raise e →
  mapM f (pre ++ x :: post) = Raise e.
Proof.
  intros Hpre Hx. induction Hpre as [|y pre [b Hy] _ IH]; simpl.
  - by rewrite Hx.
  - by rewrite Hy, IH.
Qed.

Section sections.
Context `{Env}.

(** A section of the document lists exactly the collected builders
    that belong to it, each as often as it was collected: flattening the
    buckets and sorting by name loses no builder and repeats none. *)
Theorem section_lists_its_builders (datasets : option (list string))
    (m : Sections) (builders : list DatasetBuilder) (section : string) :
  make_module_to_builder_dict datasets = Ok m →
  collect_builders datasets = Ok builders →
  section_builders m section ≡ₚ filter (in_section section) builders.
Proof.
  intros Hm Hcollect.
  destruct (make_module_to_builder_dict_tree _ _ Hm)
    as (bs & tree & Hbs & Htree & ->).
  rewrite Hcollect in Hbs. injection Hbs as <-.
  unfold section_builders. rewrite sorted_key_perm. unfold nest_flatten.
  set (d := default ∅ (default ∅ (tree !! "tensorflow_datasets") !! section)).
  set (keys := sorted (map fst (map_to_list d))).
  rewrite (map_ext _ (λ leaf,
             filter (filed_under "tensorflow_datasets" section leaf) builders)).
  2:{ intros leaf. apply (hierarchy_bucket builders tree section leaf Htree). }
  rewrite concat_filter_keys.
  - erewrite filter_iff_elem; [done|]. intros b Hb.
    rewrite in_section_filed_under, Exists_exists. split.
    + intros (leaf & _ & Hfiled). by exists leaf.
    + intros (leaf & Hfiled). exists leaf. split; [|done].
      unfold keys. rewrite sorted_perm. apply elem_of_keys.
      apply (hierarchy_leaf_iff builders tree section leaf Htree). by exists b.
  - unfold keys. rewrite sorted_perm. apply (NoDup_fst_map_to_list d).
  - intros leaf leaf' b [_ Hpath] [_ Hpath']. congruence.
Qed.

(** A name of the explicit list that the registry cannot resolve ends
    the run with the registry's exception, whatever comes after it:
    nothing is grouped and no document is made. *)
Theorem unresolved_name_aborts (pre : list string) (n : string)
    (post : list string) (e : exn) :
  Forall (λ name, ∃ b, tfds_builder name NoKwargs = Ok b) pre →
  tfds_builder n NoKwargs = Raise e →
  make_module_to_builder_dict (Some (pre ++ n :: post)) = Raise e
  ∧ dataset_docs_str (Some (pre ++ n :: post)) = Raise e.
Proof.
  intros Hpre Hn.
  assert (collect_builders (Some (pre ++ n :: post)) = Raise e) as Hcollect.
  { unfold collect_builders.
    rewrite <- (mapM_Raise_first (λ name, tfds_builder name NoKwargs)
                  pre n post e Hpre Hn).
    by destruct pre. }
  unfold dataset_docs_str, make_module_to_builder_dict.
  by rewrite Hcollect.
Qed.

End sections.

Lemma section_lists_its_builders_witness :
  section_builders Demo.default_sections "text"
  ≡ₚ filter (in_section "text")
       [Demo.zeta; Demo.alpha; Demo.dummy; Demo.multi_builder Demo.small;
        Demo.mid; Demo.mnist; Demo.image_label_folder].
Proof.
  apply (section_lists_its_builders None).
  - vm_compute. reflexivity.
  - vm_compute. reflexivity.
Defined.

Lemma unresolved_name_aborts_witness :
  dataset_docs_str (Some ["mnist"; "nope"; "alpha"])
  = Raise DatasetNotFoundError.
Proof.
  apply (unresolved_name_aborts ["mnist"] "nope" ["alpha"]).
  - apply Forall_cons. split; [|apply Forall_nil_2].
    exists Demo.mnist. vm_compute. reflexivity.
  - vm_compute. reflexivity.
Defined.

(** ** The entry of a builder with configurations, configuration by
    configuration *)

Lemma mapM_Ok_map {A B} (f : A → result B) (g : A → B) (l : list A) :
  (∀ x, x ∈ l → f x = Ok (g x)) → mapM f l = Ok (map g l).
Proof.
  induction l as [|x l IH]; intros Hfg; simpl; [done|].
  rewrite (Hfg x) by left. simpl.
  rewrite IH by (intros y Hy; apply Hfg; by right). done.
Qed.

Section configurations.
Context `{Env}.

(** The loop over configurations that all resolve, to builders of the
    same name. *)
Lemma for_each_document_config_resolved (builder : DatasetBuilder)
    (resolve : BuilderConfig → DatasetBuilder) (configs : list BuilderConfig) :
  (∀ c, c ∈ configs →
     tfds_builder (name builder) (ConfigKwarg c) = Ok (resolve c)
     ∧ name (resolve c) = name builder) →
  ∀ st,
    name (loop_builder st) = name builder →
    ∃ st',
      for_each document_config configs st = Ok st'
      ∧ name (loop_builder st') = name builder
      ∧ loop_config_docs st'
        = loop_config_docs st
            ++ map (λ c, SINGLE_CONFIG_ENTRY (name builder) (config_name c)
                           (make_feature_information (info (resolve c))))
                   configs
      ∧ ∀ c, last configs = Some c →
             loop_builder st' = resolve c
             ∧ loop_info st' = Some (info (resolve c)).
Proof.
  induction configs as [|c configs IH]; intros Hresolve st Hname.
  - exists st. simpl. split_and!; [done..|by rewrite app_nil_r|done].
  - destruct (Hresolve c) as [Hc Hcname]; [left|].
    destruct (IH (λ c' Hc', Hresolve c' (list_elem_of_further _ _ _ Hc'))
                {| loop_builder := resolve c;
                   loop_info := Some (info (resolve c));
                   loop_config_docs :=
                     loop_config_docs st
                       ++ [SINGLE_CONFIG_ENTRY (name (resolve c)) (config_name c)
                             (make_feature_information (info (resolve c)))] |}
                Hcname)
      as (st' & Hloop & Hname' & Hdocs & Hlast).
    exists st'. split_and!.
    + assert (document_config st c
              = Ok {| loop_builder := resolve c;
                      loop_info := Some (info (resolve c));
                      loop_config_docs :=
                        loop_config_docs st
                          ++ [SINGLE_CONFIG_ENTRY (name (resolve c))
                                (config_name c)
                                (make_feature_information (info (resolve c)))] |})
        as Hstep.
      { unfold document_config. by rewrite Hname, Hc. }
      cbn [for_each]. rewrite Hstep. exact Hloop.
    + exact Hname'.
    + rewrite Hdocs. cbn [loop_config_docs map]. by rewrite Hcname, <- app_assoc.
    + intros c' Hc'. destruct configs as [|c2 configs].
      * injection Hc' as <-. simpl in Hloop. by injection Hloop as <-.
      * apply Hlast. exact Hc'.
Qed.

(** When the registry resolves every configuration of a builder, to a
    builder of the same name and class, the entry is rendered and holds
    one bullet and one sub-entry per configuration, in the declared
    order, each with the size and the features of the info record
    resolved for that configuration. *)
Theorem configs_in_declared_order (builder : DatasetBuilder)
    (resolve : BuilderConfig → DatasetBuilder) :
  BUILDER_CONFIGS builder ≠ [] →
  (∀ c, c ∈ BUILDER_CONFIGS builder →
     tfds_builder (name builder) (ConfigKwarg c) = Ok (resolve c)
     ∧ name (resolve c) = name builder
     ∧ BUILDER_CONFIGS (resolve c) = BUILDER_CONFIGS builder) →
  ∃ f,
    document_single_builder builder = Ok (DATASET_WITH_CONFIGS_ENTRY f)
    ∧ ce_snakecase_name f = name builder
    ∧ ce_config_names f
      = join nl
          (map (λ c, CONFIG_BULLET (config_name c) (config_version c)
                       (size_str (size_in_bytes (info (resolve c))))
                       (config_description c))
               (BUILDER_CONFIGS builder))
    ∧ ce_configs f
      = join nl
          (map (λ c, SINGLE_CONFIG_ENTRY (name builder) (config_name c)
                       (make_feature_information (info (resolve c))))
               (BUILDER_CONFIGS builder)).
Proof.
  intros Hconfigs Hresolve.
  destruct (for_each_document_config_resolved builder resolve
              (BUILDER_CONFIGS builder)
              (λ c Hc, conj (proj1 (Hresolve c Hc)) (proj1 (proj2 (Hresolve c Hc))))
              {| loop_builder := builder; loop_info := None;
                 loop_config_docs := [] |} eq_refl)
    as (st & Hloop & Hname & Hdocs & Hlast).
  destruct (last (BUILDER_CONFIGS builder)) as [c|] eqn:Hc;
    [|by apply last_None in Hc].
  destruct (Hlast c eq_refl) as [Hbuilder Hinfo].
  assert (c ∈ BUILDER_CONFIGS builder) as Hin.
  { apply last_Some in Hc as [l ->]. apply elem_of_app. right. left. }
  destruct (Hresolve c Hin) as (_ & _ & Hsame).
  unfold document_single_builder, document_single_builder_args, builder_configs.
  destruct (BUILDER_CONFIGS builder) as [|c0 rest] eqn:Hlist; [done|].
  rewrite Hloop. cbn [mbind result_bind].
  rewrite Hbuilder, Hsame.
  rewrite (mapM_Ok_map _
             (λ c, CONFIG_BULLET (config_name c) (config_version c)
                     (size_str (size_in_bytes (info (resolve c))))
                     (config_description c))).
  2:{ intros c' Hc'. unfold config_bullet.
      destruct (Hresolve c' Hc') as (Hres & Hn & _).
      rewrite <- Hbuilder, Hname, Hres. done. }
  cbn [mbind result_bind]. rewrite <- Hbuilder, Hinfo.
  eexists. split; [reflexivity|]. cbn. rewrite Hname, Hdocs. done.
Qed.

(** The loop over configurations that resolve, without more. *)
Lemma for_each_document_config_Ok (builder : DatasetBuilder)
    (configs : list BuilderConfig) :
  (∀ c, c ∈ configs →
     ∃ b, tfds_builder (name builder) (ConfigKwarg c) = Ok b
          ∧ name b = name builder) →
  ∀ st,
    name (loop_builder st) = name builder →
    ∃ st',
      for_each document_config configs st = Ok st'
      ∧ name (loop_builder st') = name builder.
Proof.
  induction configs as [|c configs IH]; intros Hresolve st Hname.
  - by exists st.
  - destruct (Hresolve c) as (b & Hb & Hbname); [left|].
    assert (∃ st1, document_config st c = Ok st1
                   ∧ name (loop_builder st1) = name builder) as (st1 & Hstep & Hst1).
    { unfold document_config. rewrite Hname, Hb. by eexists. }
    cbn [for_each]. rewrite Hstep. apply IH; [|done].
    intros c' Hc'. apply Hresolve. by right.
Qed.

(** The first configuration that the registry cannot resolve ends the
    rendering of the builder with the registry's exception: no entry is
    produced, whatever the configurations before and after it. *)
Theorem config_resolution_error_aborts (builder : DatasetBuilder)
    (pre : list BuilderConfig) (c : BuilderConfig) (post : list BuilderConfig)
    (e : exn) :
  BUILDER_CONFIGS builder = pre ++ c :: post →
  (∀ c', c' ∈ pre →
     ∃ b, tfds_builder (name builder) (ConfigKwarg c') = Ok b
          ∧ name b = name builder) →
  tfds_builder (name builder) (ConfigKwarg c) = Raise e →
  document_single_builder builder = Raise e.
Proof.
  intros Hconfigs Hpre Hc.
  destruct (for_each_document_config_Ok builder pre Hpre
              {| loop_builder := builder; loop_info := None;
                 loop_config_docs := [] |} eq_refl)
    as (st & Hloop & Hname).
  unfold document_single_builder, document_single_builder_args, builder_configs.
  rewrite Hconfigs.
  destruct (pre ++ c :: post) as [|c0 rest] eqn:Hlist;
    [by destruct pre|].
  assert (document_config st c = Raise e) as Hstep.
  { unfold document_config. by rewrite Hname, Hc. }
  rewrite <- Hlist, for_each_app, Hloop.
  cbn [mbind result_bind for_each]. by rewrite Hstep.
Qed.

End configurations.

Lemma configs_in_declared_order_witness :
  ∃ f,
    document_single_builder (Demo.multi_builder Demo.small)
    = Ok (DATASET_WITH_CONFIGS_ENTRY f)
    ∧ ce_configs f
      = join nl
          [SINGLE_CONFIG_ENTRY "multi" "small"
             (make_feature_information Demo.small_info);
           SINGLE_CONFIG_ENTRY "multi" "large"
             (make_feature_information Demo.large_info)].
Proof.
  destruct (configs_in_declared_order (Demo.multi_builder Demo.small)
              Demo.multi_builder)
    as (f & Hdoc & _ & _ & Hconfigs).
  - discriminate.
  - intros c _. split_and!; reflexivity.
  - exists f. split; [exact Hdoc|]. rewrite Hconfigs. reflexivity.
Defined.

Lemma config_resolution_error_aborts_witness :
  @document_single_builder Stray.env (Demo.multi_builder Demo.small)
  = Raise DatasetNotFoundError.
Proof.
  apply (@config_resolution_error_aborts Stray.env
           (Demo.multi_builder Demo.small) [Demo.small] Demo.large []).
  - reflexivity.
  - intros c' ->%list_elem_of_singleton.
    exists (Demo.multi_builder Demo.small). split; reflexivity.
  - reflexivity.
Defined.

(** ** Module names and source links *)

Lemma append_nil_l (s : string) : EmptyString +:+ s = s.
Proof. reflexivity. Qed.

Lemma append_cons (c : ascii) (s t : string) :
  String c s +:+ t = String c (s +:+ t).
Proof. reflexivity. Qed.

Lemma append_assoc (s t u : string) : (s +:+ t) +:+ u = s +:+ (t +:+ u).
Proof.
  induction s as [|c s IH]; [done|]. by rewrite !append_cons, IH.
Qed.

Lemma length_append (s t : string) :
  String.length (s +:+ t) = String.length s + String.length t.
Proof.
  induction s as [|c s IH]; [done|]. rewrite append_cons. simpl. by rewrite IH.
Qed.

Lemma substring_skip (s t : string) (k n : nat) :
  String.substring (String.length s + k) n (s +:+ t) = String.substring k n t.
Proof. induction s as [|c s IH]; [done|]. rewrite append_cons. exact IH. Qed.

Lemma substring_keep (s t : string) (k : nat) :
  String.substring 0 (String.length s + k) (s +:+ t)
  = s +:+ String.substring 0 k t.
Proof.
  induction s as [|c s IH]; [done|].
  rewrite !append_cons. simpl. by rewrite IH.
Qed.

Lemma split_nonempty (sep : ascii) (s : string) : split sep s ≠ [].
Proof.
  destruct s as [|c s]; simpl; [done|].
  destruct (Ascii.eqb c sep); [done|]. by destruct (split sep s).
Qed.

Lemma concat_cons_cons (sep x y : string) (l : list string) :
  String.concat sep (x :: y :: l) = x +:+ sep +:+ String.concat sep (y :: l).
Proof. reflexivity. Qed.

(** Joining what [split] gives restores the text. *)
Lemma join_split (sep : ascii) (s : string) :
  join (String sep EmptyString) (split sep s) = s.
Proof.
  unfold join. induction s as [|c s IH]; [done|]. simpl.
  destruct (Ascii.eqb_spec c sep) as [->|Hne].
  - pose proof (split_nonempty sep s) as Hne.
    destruct (split sep s) as [|w ws]; [done|].
    by rewrite concat_cons_cons, IH.
  - pose proof (split_nonempty sep s) as Hsplit.
    destruct (split sep s) as [|w ws]; [done|].
    rewrite <- IH. destruct ws as [|w2 ws]; [done|].
    by rewrite !concat_cons_cons.
Qed.

(** A text without separator is the first piece of what follows it. *)
Lemma split_first (sep : ascii) (first rest : string) :
  sep ∉ list_ascii_of_string first →
  split sep (first +:+ String sep rest) = first :: split sep rest.
Proof.
  induction first as [|c first IH]; intros Hsep.
  - rewrite append_nil_l. simpl. by rewrite Ascii.eqb_refl.
  - rewrite append_cons. simpl in *.
    apply not_elem_of_cons in Hsep as [Hc Hfirst].
    destruct (Ascii.eqb_spec c sep) as [->|_]; [done|].
    by rewrite (IH Hfirst).
Qed.

Lemma split_whole (sep : ascii) (s : string) :
  sep ∉ list_ascii_of_string s → split sep s = [s].
Proof.
  induction s as [|c s IH]; intros Hsep; [done|]. simpl in *.
  apply not_elem_of_cons in Hsep as [Hc Hs].
  destruct (Ascii.eqb_spec c sep) as [->|_]; [done|]. by rewrite (IH Hs).
Qed.

(** Every text is free of the separator or has a first piece. *)
Lemma first_piece (sep : ascii) (s : string) :
  sep ∉ list_ascii_of_string s
  ∨ ∃ first rest,
      s = first +:+ String sep rest ∧ sep ∉ list_ascii_of_string first.
Proof.
  induction s as [|c s IH]; [left; apply not_elem_of_nil|].
  destruct (decide (c = sep)) as [->|Hc].
  { right. exists EmptyString, s. split; [done|apply not_elem_of_nil]. }
  destruct IH as [Hs|(first & rest & -> & Hfirst)].
  - left. simpl. by apply not_elem_of_cons.
  - right. exists (String c first), rest. split; [done|].
    simpl. by apply not_elem_of_cons.
Qed.

(** [tfds_mod_name] replaces the text before the first dot by [tfds]
    and keeps the rest of the module name as it is; a name without a dot
    becomes [tfds]; applying it twice changes nothing more. *)
Theorem tfds_mod_name_replaces_root (first rest : string) :
  "."%char ∉ list_ascii_of_string first →
  tfds_mod_name (first +:+ "." +:+ rest) = "tfds." +:+ rest
  ∧ tfds_mod_name first = "tfds"
  ∧ ∀ mod_name, tfds_mod_name (tfds_mod_name mod_name) = tfds_mod_name mod_name.
Proof.
  assert (∀ a b, "."%char ∉ list_ascii_of_string a →
                 tfds_mod_name (a +:+ "." +:+ b) = "tfds." +:+ b) as Hdot.
  { intros a b Ha. unfold tfds_mod_name.
    change (a +:+ "." +:+ b) with (a +:+ String "."%char b).
    rewrite (split_first _ _ _ Ha). simpl.
    pose proof (split_nonempty "." b) as Hne.
    pose proof (join_split "." b) as Hjoin. unfold join in *.
    destruct (split "." b) as [|w ws]; [done|].
    by rewrite Hjoin. }
  assert (∀ a, "."%char ∉ list_ascii_of_string a → tfds_mod_name a = "tfds")
    as Hwhole.
  { intros a Ha. unfold tfds_mod_name. by rewrite (split_whole _ _ Ha). }
  intros Hfirst. split_and!; [by apply Hdot|by apply Hwhole|].
  intros mod_name.
  destruct (first_piece "." mod_name) as [Hnone|(a & b & -> & Ha)].
  - rewrite (Hwhole _ Hnone). by vm_compute.
  - change (a +:+ String "."%char b) with (a +:+ "." +:+ b).
    rewrite (Hdot a b Ha).
    change ("tfds." +:+ b) with ("tfds" +:+ "." +:+ b).
    apply Hdot. apply (bool_decide_unpack _). vm_compute. exact I.
Qed.

Lemma tfds_mod_name_replaces_root_witness :
  tfds_mod_name "tensorflow_datasets.image.mnist" = "tfds.image.mnist".
Proof.
  apply (tfds_mod_name_replaces_root "tensorflow_datasets" "image.mnist").
  apply (bool_decide_unpack _). vm_compute. exact I.
Defined.

Section source_link.
Context `{Env}.

(** The link to the source does not depend on whether the module was
    loaded from its source file or from the compiled file beside it: a
    file name ending in [.pyc] is taken as the [.py] file.  The link is
    the base URL, a slash and the path of that file relative to the
    package, when that path is relative. *)
Theorem cls_url_of_compiled_module (module_name stem : string) :
  module_file module_name = stem +:+ ".py"
    ∨ module_file module_name = stem +:+ ".pyc" →
  cls_url module_name = path_join BASE_URL (relpath_tfds_dir (stem +:+ ".py"))
  ∧ (String.prefix "/" (relpath_tfds_dir (stem +:+ ".py")) = false →
     cls_url module_name
     = BASE_URL +:+ "/" +:+ relpath_tfds_dir (stem +:+ ".py")).
Proof.
  intros Hfile.
  assert (endswith (stem +:+ ".pyc") "pyc" = true) as Hpyc.
  { unfold endswith. rewrite length_append.
    change (String.length ".pyc") with 4. change (String.length "pyc") with 3.
    replace (String.length stem + 4 - 3) with (String.length stem + 1) by lia.
    rewrite substring_skip.
    apply andb_true_iff. split; [apply Nat.leb_le; lia|done]. }
  assert (endswith (stem +:+ ".py") "pyc" = false) as Hpy.
  { unfold endswith. rewrite length_append.
    change (String.length ".py") with 3. change (String.length "pyc") with 3.
    replace (String.length stem + 3 - 3) with (String.length stem + 0) by lia.
    rewrite substring_skip. apply andb_false_r. }
  assert (drop_last (stem +:+ ".pyc") = stem +:+ ".py") as Hdrop.
  { unfold drop_last. rewrite length_append.
    change (String.length ".pyc") with 4.
    replace (String.length stem + 4 - 1) with (String.length stem + 3) by lia.
    by rewrite substring_keep. }
  assert (cls_url module_name
          = path_join BASE_URL (relpath_tfds_dir (stem +:+ ".py"))) as Hurl.
  { unfold cls_url. destruct Hfile as [-> | ->].
    - by rewrite Hpy.
    - by rewrite Hpyc, Hdrop. }
  split; [done|]. intros Hrelative. rewrite Hurl.
  unfold path_join. by rewrite Hrelative.
Qed.

End source_link.

Lemma cls_url_of_compiled_module_witness :
  module_file "tensorflow_datasets.image.mnist"
  = "tensorflow_datasets/image/mnist.pyc"
  ∧ cls_url "tensorflow_datasets.image.mnist"
    = "https://github.com/tensorflow/datasets/tree/master/tensorflow_datasets/image/mnist.py".
Proof.
  split; [reflexivity|].
  destruct (cls_url_of_compiled_module "tensorflow_datasets.image.mnist"
              "tensorflow_datasets/image/mnist") as [_ Hurl].
  - right. reflexivity.
  - rewrite Hurl; reflexivity.
Defined.

(** ** The rows of the statistics table *)

Lemma row_ge_refl (a : Z * string) : row_ge a a.
Proof. right. split; [done|]. apply (reflexivity (R:=String.le)). Qed.

Lemma row_ge_antisym (a b : Z * string) : row_ge a b → row_ge b a → a = b.
Proof.
  destruct a as [n1 l1], b as [n2 l2]. unfold row_ge. simpl.
  intros [?|[? Hle1]] [?|[? Hle2]]; try lia.
  subst. f_equal. by apply (anti_symm String.le).
Qed.

Lemma sorted_stats_perm (total : Z) (splits : SplitDict) :
  sorted_stats total splits ≡ₚ unsorted_stats total splits.
Proof.
  unfold sorted_stats, unsorted_stats. rewrite sort_reverse_perm. simpl.
  constructor. erewrite map_ext; [done|]. by intros [??].
Qed.

(** The first row of the sorted rows stands before every row. *)
Lemma sorted_stats_head (total : Z) (splits : SplitDict) :
  ∃ first rest,
    sorted_stats total splits = first :: rest
    ∧ ∀ row, row ∈ sorted_stats total splits → row_ge first row.
Proof.
  pose proof (sort_reverse_sorted
                ([(total, "ALL")]
                   ++ map (λ '(split_name, split_info),
                             (num_examples split_info, upper split_name))
                          (split_items splits))) as Hsorted.
  pose proof (sorted_stats_perm total splits) as Hperm.
  unfold sorted_stats in *.
  destruct (sort_reverse _) as [|first rest].
  { by apply Permutation_nil_l in Hperm. }
  exists first, rest. split; [done|].
  apply StronglySorted_inv in Hsorted as [_ Hfirst].
  intros row [->|Hrow]%elem_of_cons; [apply row_ge_refl|].
  by apply (proj1 (Forall_forall _ _) Hfirst).
Qed.

(** The aggregate row is the first row of the table exactly when every
    split has fewer examples than the total, or as many and an
    upper-cased name that does not come after ["ALL"]. *)
Theorem aggregate_row_first_iff (total : Z) (splits : SplitDict) :
  head (sorted_stats total splits) = Some (total, "ALL")
  ↔ Forall (λ kv, row_ge (total, "ALL") (num_examples kv.2, upper kv.1))
           (split_items splits).
Proof.
  destruct (sorted_stats_head total splits) as (first & rest & Hrows & Hfirst).
  pose proof (sorted_stats_perm total splits) as Hperm.
  rewrite Hrows. simpl. split.
  - intros [= ->]. apply Forall_forall. intros kv Hkv.
    apply Hfirst. rewrite Hperm. right.
    apply (list_elem_of_fmap_2 (λ kv, (num_examples kv.2, upper kv.1))), Hkv.
  - intros Hall. f_equal. apply row_ge_antisym.
    + apply Hfirst. rewrite Hperm. left.
    + assert (first ∈ unsorted_stats total splits) as Hin.
      { rewrite <- Hperm, Hrows. left. }
      apply elem_of_cons in Hin as [->|Hin]; [apply row_ge_refl|].
      apply list_elem_of_fmap in Hin as (kv & -> & Hkv).
      by apply (proj1 (Forall_forall _ _) Hall).
Qed.

Lemma aggregate_row_first_iff_witness :
  head (sorted_stats 70000
          (splits (Demo.stats_info (Some 70000%Z) Demo.mnist_splits [])))
  = Some (70000%Z, "ALL").
Proof.
  apply aggregate_row_first_iff. simpl.
  repeat (apply Forall_cons; split; [left; simpl; lia|]). apply Forall_nil_2.
Defined.



(** ** The URL of the JSON-LD record *)




Section json_ld_url.
Context `{Env}.


End json_ld_url.


(** ** The two modes of the feature-tree renderer *)

(** The text of the outermost mode is the text of the nested mode with
    the indent of the call in front: [add_prefix] changes nothing else. *)
Theorem outermost_adds_indent (features_dict : FeaturesDict) (indent : Z) :
  _pprint_features_dict features_dict indent true
  = str_mul " " indent +:+ _pprint_features_dict features_dict indent false.
Proof.
  destruct features_dict as [type_name items].
  unfold _pprint_features_dict, join. rewrite !pprint_lines_unfold.
  destruct (map (entry_line indent items) (sorted (map fst items))
              ++ [str_mul " " indent +:+ "})"]) as [|line lines] eqn:Hlines.
  { by apply app_eq_nil in Hlines as [_ [=]]. }
  cbn [app]. by rewrite !concat_cons_cons, !append_assoc.
Qed.

(** ** The citation block *)

Lemma lstrip_blank (s : string) :
  Forall (λ c, is_space c = true) (list_ascii_of_string s) →
  lstrip s = EmptyString.
Proof.
  induction s as [|c s IH]; simpl; [done|].
  intros [Hc Hs]%Forall_cons. rewrite Hc. by apply IH.
Qed.

(** There is no citation block exactly when the citation is absent or
    the empty text.  A citation of whitespace only is not empty: it
    gives a citation block around an empty text. *)
Theorem citation_block_iff (citation : option string) :
  (make_citation citation = EmptyString
   ↔ citation = None ∨ citation = Some EmptyString)
  ∧ (∀ text,
       citation = Some text →
       text ≠ EmptyString →
       Forall (λ c, is_space c = true) (list_ascii_of_string text) →
       make_citation citation = CITATION_BLOCK EmptyString).
Proof.
  split.
  - unfold make_citation. destruct citation as [c|]; [|by split; [left|]].
    destruct (String.eqb_spec c EmptyString) as [->|Hne].
    + split; [by right|done].
    + split; [discriminate|]. intros [[=]|[= ->]]. done.
  - intros text -> Hne Hblank. unfold make_citation.
    destruct (String.eqb_spec text EmptyString) as [->|_]; [done|].
    unfold strip. by rewrite (lstrip_blank text Hblank).
Qed.

Lemma citation_block_iff_witness :
  make_citation (Some "  ") = CITATION_BLOCK EmptyString.
Proof.
  apply (proj2 (citation_block_iff (Some "  ")) "  ");
    [reflexivity|discriminate|].
  repeat (apply Forall_cons; split; [reflexivity|]). apply Forall_nil_2.
Defined.

(** ** What a plain entry depends on *)

(** The entry of a builder without configurations is made from the
    builder alone: the registry is not asked for anything, so two
    registries that format sizes, locate modules and print supervised
    keys alike give the same entry. *)
Theorem plain_entry_ignores_registry (env1 env2 : Env)
    (builder : DatasetBuilder) :
  builder_configs builder = [] →
  @size_str env1 = @size_str env2 →
  @module_file env1 = @module_file env2 →
  @relpath_tfds_dir env1 = @relpath_tfds_dir env2 →
  @str_supervised_keys env1 = @str_supervised_keys env2 →
  @document_single_builder env1 builder = @document_single_builder env2 builder.
Proof.
  intros Hplain Hsize Hfile Hrel Hkeys.
  unfold document_single_builder, document_single_builder_args, cls_url.
  by rewrite Hplain, Hsize, Hfile, Hrel, Hkeys.
Qed.

Lemma plain_entry_ignores_registry_witness :
  @document_single_builder Demo.env Demo.mnist
  = @document_single_builder
      {| tfds_builder := λ _ _, Raise DatasetNotFoundError;
         tfds_list_builders := [];
         size_str := @size_str Demo.env;
         module_file := @module_file Demo.env;
         relpath_tfds_dir := @relpath_tfds_dir Demo.env;
         str_supervised_keys := @str_supervised_keys Demo.env |}
      Demo.mnist.
Proof.
  apply plain_entry_ignores_registry; reflexivity.
Defined.

(** ** The default enumeration and the designated builder *)

Section default_enumeration.
Context `{Env}.

(** Without an explicit list of datasets, and with an empty one, the
    designated builder is always constructed: when all listed names
    resolve and its construction fails, the run ends with that
    exception, without a hierarchy and without a document. *)
Theorem default_enumeration_needs_designated (listed : list DatasetBuilder)
    (e : exn) :
  mapM (λ name, tfds_builder name NoKwargs)
       (filter (λ name, name ∉ BUILDER_BLACKLIST) tfds_list_builders)
  = Ok listed →
  tfds_builder "image_label_folder" (DatasetNameKwarg "image_label_folder")
  = Raise e →
  make_module_to_builder_dict None = Raise e
  ∧ dataset_docs_str None = Raise e
  ∧ dataset_docs_str (Some []) = Raise e.
Proof.
  intros Hlisted Hextra.
  assert (collect_builders None = Raise e) as Hcollect.
  { unfold collect_builders. by rewrite Hlisted, Hextra. }
  unfold dataset_docs_str, make_module_to_builder_dict.
  change (collect_builders (Some [])) with (collect_builders None).
  by rewrite Hcollect.
Qed.

End default_enumeration.

Lemma default_enumeration_needs_designated_witness :
  @dataset_docs_str Stray.bare_env None = Raise DatasetNotFoundError.
Proof.
  apply (@default_enumeration_needs_designated Stray.bare_env [Demo.mnist]).
  - vm_compute. reflexivity.
  - reflexivity.
Defined.
